(** * Mysite: the shop and auth views, embedded and verified

    A shallow embedding of [mysite/shopapp/views.py] and
    [mysite/myauth/views.py].  The views are short glue over Django, so the
    development has three layers:

    - [Py]: the Python builtins the views call ([str] of a [Decimal] and of
      a [datetime], [repr] of a [str], [urllib.parse.quote]);
    - [Django]: the parts of the framework the views run through (requests,
      responses, the JSON encoder of [JsonResponse], users and permissions,
      the access mixins and decorators);
    - [Models], [Shopapp], [Myauth]: the store and the views themselves.

    The model, settings and URL modules are not part of the sources at hand;
    what the views need of them (column types, [LOGIN_URL], [reverse]) is
    taken from the specification or as a section variable. *)

From Stdlib Require Import ZArith NArith List String Ascii Bool Lia DecimalString.
From stdpp Require Import base option list gmap strings sorting.

Local Open Scope Z_scope.
Set Warnings "-register-all".

(* ===================================================================== *)
(** ** Python builtins *)
(* ===================================================================== *)

Module Py.

(** [str(n)] for a non-negative integer. *)
Definition str_N (n : N) : string := NilEmpty.string_of_uint (N.to_uint n).

(** [str(z)] for an integer. *)
Definition str_Z (z : Z) : string :=
  if z <? 0 then "-" +:+ str_N (Z.abs_N z) else str_N (Z.abs_N z).

(** ["%+d" % z]: the sign is always written. *)
Definition str_signed (z : Z) : string :=
  (if z <? 0 then "-" else "+") +:+ str_N (Z.abs_N z).

Fixpoint repeat_char (c : ascii) (n : nat) : string :=
  match n with
  | O => EmptyString
  | S k => String c (repeat_char c k)
  end.

(** ["%0<w>d" % n] for a non-negative [n]. *)
Definition zfill (w : nat) (s : string) : string :=
  repeat_char "0" (w - String.length s) +:+ s.

(** A finite [decimal.Decimal]: sign, coefficient and exponent, as the
    class stores them ([_sign], [_int] without leading zeros, [_exp]). *)
Record decimal := mk_decimal {
  dec_sign : bool;
  dec_int : N;
  dec_exp : Z
}.

(** [Decimal.__str__] for finite values (default context, capitals on). *)
Definition str_decimal (d : decimal) : string :=
  let int := str_N (dec_int d) in
  let len := Z.of_nat (String.length int) in
  let leftdigits := dec_exp d + len in
  let dotplace :=
    if (dec_exp d <=? 0) && (-6 <? leftdigits) then leftdigits else 1 in
  let intpart :=
    if dotplace <=? 0 then "0"
    else if len <=? dotplace
         then int +:+ repeat_char "0" (Z.to_nat (dotplace - len))
         else substring 0 (Z.to_nat dotplace) int in
  let fracpart :=
    if dotplace <=? 0
    then "." +:+ repeat_char "0" (Z.to_nat (- dotplace)) +:+ int
    else if len <=? dotplace then ""
         else "." +:+ substring (Z.to_nat dotplace) (Z.to_nat (len - dotplace)) int in
  let exp :=
    if leftdigits =? dotplace then ""
    else "E" +:+ str_signed (leftdigits - dotplace) in
  (if dec_sign d then "-" else "") +:+ intpart +:+ fracpart +:+ exp.

(** A [datetime.datetime]; [utcoffset] is in minutes east of UTC, [None]
    for a naive value. *)
Record datetime := mk_datetime {
  year : N; month : N; day : N;
  hour : N; minute : N; second : N; microsecond : N;
  utcoffset : option Z
}.

(** [str(dt)], that is [dt.isoformat(sep=' ')]. *)
Definition str_datetime (dt : datetime) : string :=
  zfill 4 (str_N (year dt)) +:+ "-" +:+ zfill 2 (str_N (month dt)) +:+ "-"
  +:+ zfill 2 (str_N (day dt)) +:+ " "
  +:+ zfill 2 (str_N (hour dt)) +:+ ":" +:+ zfill 2 (str_N (minute dt)) +:+ ":"
  +:+ zfill 2 (str_N (second dt))
  +:+ (if (microsecond dt =? 0)%N then ""
       else "." +:+ zfill 6 (str_N (microsecond dt)))
  +:+ match utcoffset dt with
      | None => ""
      | Some off =>
          (if off <? 0 then "-" else "+")
          +:+ zfill 2 (str_N (Z.abs_N off / 60)) +:+ ":"
          +:+ zfill 2 (str_N (Z.abs_N off mod 60))
      end.

(** [str(s)] of a [str] is the string itself. *)
Definition str_str (s : string) : string := s.

Definition squote : ascii := "039".
Definition dquote : ascii := "034".
Definition backslash : ascii := "092".

Definition hex_lower (n : N) : ascii :=
  if (n <? 10)%N then ascii_of_N (48 + n) else ascii_of_N (87 + n).
Definition hex_upper (n : N) : ascii :=
  if (n <? 10)%N then ascii_of_N (48 + n) else ascii_of_N (55 + n).

Fixpoint contains_char (c : ascii) (s : string) : bool :=
  match s with
  | EmptyString => false
  | String a s' => Ascii.eqb a c || contains_char c s'
  end.

(** [str.isprintable] on the Latin-1 code points above ASCII: the C1
    controls, the no-break space and the soft hyphen are not printable. *)
Definition latin1_printable (n : N) : bool :=
  negb ((n <=? 160)%N || (n =? 173)%N).

(** One character of [repr(s)], for the quote character chosen. *)
Definition repr_char (quote c : ascii) : string :=
  let n := N_of_ascii c in
  if Ascii.eqb c quote || Ascii.eqb c backslash
  then String backslash (String c EmptyString)
  else if (n =? 9)%N then String backslash "t"
  else if (n =? 10)%N then String backslash "n"
  else if (n =? 13)%N then String backslash "r"
  else if (n <? 32)%N || (n =? 127)%N || ((127 <? n)%N && negb (latin1_printable n))
  then String backslash
         (String "x" (String (hex_lower (n / 16)) (String (hex_lower (n mod 16)) EmptyString)))
  else String c EmptyString.

Fixpoint repr_body (quote : ascii) (s : string) : string :=
  match s with
  | EmptyString => EmptyString
  | String c s' => repr_char quote c +:+ repr_body quote s'
  end.

(** [repr(s)] of a [str] whose code points are below 256 (the characters
    of a Rocq string read as code points): single quotes, unless the
    string has a single quote and no double quote. *)
Definition repr_str (s : string) : string :=
  let quote :=
    if contains_char squote s && negb (contains_char dquote s)
    then dquote else squote in
  String quote (repr_body quote s) +:+ String quote EmptyString.

Definition is_unreserved (c : ascii) : bool :=
  let n := N_of_ascii c in
  ((48 <=? n)%N && (n <=? 57)%N) || ((65 <=? n)%N && (n <=? 90)%N)
  || ((97 <=? n)%N && (n <=? 122)%N)
  || Ascii.eqb c "_" || Ascii.eqb c "." || Ascii.eqb c "-" || Ascii.eqb c "~".

(** [urllib.parse.quote(s, safe)] on the bytes of [s] (the characters of
    a Rocq string read as the UTF-8 bytes). *)
Fixpoint quote (safe : string) (s : string) : string :=
  match s with
  | EmptyString => EmptyString
  | String c s' =>
      (if is_unreserved c || contains_char c safe then String c EmptyString
       else let n := N_of_ascii c in
            String "%" (String (hex_upper (n / 16))
                          (String (hex_upper (n mod 16)) EmptyString)))
      +:+ quote safe s'
  end.

(** The Python values the export views build. *)
Inductive value :=
| PyNone
| PyBool (b : bool)
| PyInt (z : Z)
| PyStr (s : string)
| PyDecimal (d : decimal)
| PyList (l : list value)
| PyDict (l : list (string * value)).

End Py.

(* ===================================================================== *)
(** ** The entity store *)
(* ===================================================================== *)

Module Models.

(** Modelled from the spec: [shopapp/models.py] is not among the sources;
    the columns are those of the specification's data model.  A table maps
    a primary key to its row, so a row does not repeat its key. *)
Record Product := mk_product {
  name : string;
  price : Py.decimal;
  description : string;
  discount : Z;
  archived : bool;
  preview : option string
}.

(** Modelled from the spec: the columns of an order; its products are the
    rows of the join table [order_products] of the store. *)
Record Order := mk_order {
  delivery_address : string;
  promocode : string;
  created_at : Py.datetime;
  user_id : Z
}.

(** The two tables and the join table of the many-to-many relation, a
    set of pairs (order key, product key). *)
Record Store := mk_store {
  products : gmap Z Product;
  orders : gmap Z Order;
  order_products : gset (Z * Z)
}.

(** A model instance as a view holds it: the primary key and the row. *)
Definition instance (A : Type) : Type := Z * A.

(** [Model.objects.all()]: every row, in the order the table yields them. *)
Definition objects_all {A} (t : gmap Z A) : list (instance A) := map_to_list t.

Definition pk_le {A} (x y : instance A) : Prop := x.1 ≤ y.1.

#[export] Instance pk_le_dec {A} (x y : instance A) : Decision (pk_le x y).
Proof. unfold pk_le. apply _. Defined.

(** [queryset.order_by('pk')]. *)
Definition order_by_pk {A} (qs : list (instance A)) : list (instance A) :=
  merge_sort pk_le qs.

(** Ascending by primary key, no key twice: what [order_by('pk')] yields. *)
Definition ascending {A} (qs : list (instance A)) : Prop :=
  StronglySorted (λ x y, x.1 < y.1) qs.

(** [Product.objects.filter(archived=b)]. *)
Definition filter_archived (b : bool) (qs : list (instance Product))
  : list (instance Product) :=
  filter (λ r, archived r.2 = b) qs.

(** [order.products.all()]: the products joined to the order. *)
Definition order_products_all (s : Store) (order_pk : Z) : list (instance Product) :=
  filter (λ r, (order_pk, r.1) ∈ order_products s) (objects_all (products s)).

(** [obj in queryset]: Python compares with [Model.__eq__], that is by
    primary key. *)
Definition model_in {A} (obj : instance A) (qs : list (instance A)) : bool :=
  existsb (λ q, q.1 =? obj.1) qs.

(** [obj.save()] of a product: the row under its key is written. *)
Definition save_product (obj : instance Product) (s : Store) : Store :=
  {| products := <[obj.1 := obj.2]> (products s);
     orders := orders s;
     order_products := order_products s |}.

End Models.

(* ===================================================================== *)
(** ** The framework *)
(* ===================================================================== *)

Module Django.

(** *** JSON and the encoder of [JsonResponse] *)

Inductive json :=
| JNull
| JBool (b : bool)
| JNumber (z : Z)
| JString (s : string)
| JArray (l : list json)
| JObject (l : list (string * json)).

Definition is_number (j : json) : bool :=
  match j with JNumber _ => true | _ => false end.
Definition is_string (j : json) : bool :=
  match j with JString _ => true | _ => false end.

(** [json.dumps(v, cls=DjangoJSONEncoder)], as a JSON value: the encoder's
    [default] writes a [Decimal] as [str(o)]. *)
Fixpoint encode (v : Py.value) : json :=
  match v with
  | Py.PyNone => JNull
  | Py.PyBool b => JBool b
  | Py.PyInt z => JNumber z
  | Py.PyStr s => JString s
  | Py.PyDecimal d => JString (Py.str_decimal d)
  | Py.PyList l => JArray (map encode l)
  | Py.PyDict l => JObject (map (λ kv, (kv.1, encode kv.2)) l)
  end.

(** [obj[key]] of a JSON object, [arr[i]] of a JSON array. *)
Fixpoint assoc {A} (key : string) (l : list (string * A)) : option A :=
  match l with
  | [] => None
  | (k, v) :: l' => if String.eqb k key then Some v else assoc key l'
  end.
Definition member (key : string) (j : json) : option json :=
  match j with JObject l => assoc key l | _ => None end.
Definition item (i : nat) (j : json) : option json :=
  match j with JArray l => l !! i | _ => None end.

(** *** Users and permissions *)

Record User := mk_user {
  user_pk : Z;
  user_is_active : bool;
  user_is_staff : bool;
  user_is_superuser : bool;
  (** every permission the user holds, directly or through a group,
      as ["app_label.codename"] *)
  user_permissions : gset string
}.

(** [request.user]. *)
Inductive RequestUser :=
| AnonymousUser
| LoggedIn (u : User).

Definition is_authenticated (u : RequestUser) : bool :=
  match u with AnonymousUser => false | LoggedIn _ => true end.
Definition is_staff (u : RequestUser) : bool :=
  match u with AnonymousUser => false | LoggedIn u => user_is_staff u end.
Definition is_superuser (u : RequestUser) : bool :=
  match u with AnonymousUser => false | LoggedIn u => user_is_superuser u end.

(** [user.has_perm(perm)]: an active superuser holds every permission;
    the model backend answers for active users only. *)
Definition has_perm (u : RequestUser) (perm : string) : bool :=
  match u with
  | AnonymousUser => false
  | LoggedIn u =>
      user_is_active u
      && (user_is_superuser u || bool_decide (perm ∈ user_permissions u))
  end.

Definition has_perms (u : RequestUser) (perms : list string) : bool :=
  forallb (has_perm u) perms.

(** *** Requests, responses and exceptions *)

Record HttpRequest := mk_request {
  user : RequestUser;
  COOKIES : gmap string string;
  (** [request.get_full_path()] *)
  full_path : string
}.

(** What outlives a request: the database and the client's session. *)
Record World := mk_world {
  db : Models.Store;
  session : gmap string string
}.

Inductive ContextValue :=
| CtxNone
| CtxBool (b : bool)
| ProductList (l : list (Models.instance Models.Product))
| OrderObject (o : Models.instance Models.Order)
              (ps : list (Models.instance Models.Product))
| OrderList (l : list (Models.instance Models.Order
                       * list (Models.instance Models.Product))).

Inductive Content :=
| Text (s : string)
| Json (j : json)
| Template (template_name : string) (context : list (string * ContextValue)).

Record Morsel := mk_morsel {
  morsel_value : string;
  max_age : option Z
}.

Record Response := mk_response {
  status_code : Z;
  content : Content;
  location : option string;
  cookies : gmap string Morsel
}.

Definition HttpResponse (body : string) : Response :=
  mk_response 200 (Text body) None ∅.
Definition HttpResponseRedirect (url : string) : Response :=
  mk_response 302 (Text "") (Some url) ∅.
Definition JsonResponse (data : Py.value) : Response :=
  mk_response 200 (Json (encode data)) None ∅.
Definition render (template_name : string)
    (context : list (string * ContextValue)) : Response :=
  mk_response 200 (Template template_name context) None ∅.

(** [response.set_cookie(key, value, max_age=n)]. *)
Definition set_cookie (key value : string) (n : Z) (r : Response) : Response :=
  mk_response (status_code r) (content r) (location r)
    (<[key := mk_morsel value (Some n)]> (cookies r)).

Inductive Exception :=
| PermissionDenied
| Http404
| KeyError.

Inductive except (A : Type) :=
| Return (a : A)
| Raise (e : Exception).
Arguments Return {A} a.
Arguments Raise {A} e.

Definition bind {A B} (m : except A) (k : A → except B) : except B :=
  match m with
  | Return a => k a
  | Raise e => Raise e
  end.

(** The status the client sees: the handler turns [PermissionDenied] into
    403, [Http404] into 404 and any other exception into 500. *)
Definition status (r : except Response) : Z :=
  match r with
  | Return r => status_code r
  | Raise PermissionDenied => 403
  | Raise Http404 => 404
  | Raise KeyError => 500
  end.

Definition View : Type := HttpRequest → World → except Response * World.

(** The JSON document of a result, when it is a [JsonResponse]. *)
Definition json_body (r : except Response) : option json :=
  match r with
  | Return r => match content r with Json j => Some j | _ => None end
  | Raise _ => None
  end.

(** *** Access control *)

Section Access.
(** [settings.LOGIN_URL], resolved; a plain path (no query, no fragment,
    no host).  The settings module is not among the sources. *)
Variable LOGIN_URL : string.

(** [redirect_to_login(next, login_url, "next")]: the login URL with
    [next] as its query. *)
Definition redirect_to_login (next : string) : Response :=
  HttpResponseRedirect (LOGIN_URL +:+ "?next=" +:+ Py.quote "/" next).

(** [AccessMixin.handle_no_permission]. *)
Definition handle_no_permission (raise_exception : bool) (request : HttpRequest)
  : except Response :=
  if raise_exception || is_authenticated (user request)
  then Raise PermissionDenied
  else Return (redirect_to_login (full_path request)).

(** [LoginRequiredMixin.dispatch]. *)
Definition LoginRequiredMixin (dispatch : View) : View := λ request w,
  if is_authenticated (user request) then dispatch request w
  else (handle_no_permission false request, w).

(** [PermissionRequiredMixin.dispatch], with [raise_exception] left at
    its default. *)
Definition PermissionRequiredMixin (permission_required : list string)
    (dispatch : View) : View := λ request w,
  if has_perms (user request) permission_required then dispatch request w
  else (handle_no_permission false request, w).

(** [UserPassesTestMixin.dispatch]. *)
Definition UserPassesTestMixin (test_func : HttpRequest → bool)
    (dispatch : View) : View := λ request w,
  if test_func request then dispatch request w
  else (handle_no_permission false request, w).

(** The decorator [user_passes_test(test_func)]; the test may raise. *)
Definition user_passes_test (test_func : RequestUser → except bool)
    (view_func : View) : View := λ request w,
  match test_func (user request) with
  | Return true => view_func request w
  | Return false => (Return (redirect_to_login (full_path request)), w)
  | Raise e => (Raise e, w)
  end.

(** The decorator [permission_required(perm, raise_exception=b)]. *)
Definition permission_required (perm : string) (raise_exception : bool)
  : View → View :=
  user_passes_test (λ u,
    if has_perms u [perm] then Return true
    else if raise_exception then Raise PermissionDenied
    else Return false).

End Access.

End Django.

(* ===================================================================== *)
(** ** shopapp/views.py *)
(* ===================================================================== *)

Module Shopapp.
Import Models Django.

Section Views.
Variable LOGIN_URL : string.
(** [reverse(viewname)] and [reverse_lazy(viewname)] for a view without
    arguments; the URL configuration is not among the sources. *)
Variable reverse : string → string.

(** The context [ListView] builds for an unpaginated list (the view
    instance under ["view"] is left out). *)
Definition list_context (context_object_name : string) (object_list : ContextValue)
  : list (string * ContextValue) :=
  [("paginator", CtxNone); ("page_obj", CtxNone); ("is_paginated", CtxBool false);
   ("object_list", object_list); (context_object_name, object_list)].

(** [SingleObjectMixin.get_object]: the row under [pk], or [Http404]. *)
Definition get_object {A} (t : gmap Z A) (pk : Z) : except (instance A) :=
  match t !! pk with
  | Some row => Return (pk, row)
  | None => Raise Http404
  end.

(** [ProductsListView]: [queryset = Product.objects.filter(archived=False)]. *)
Definition ProductsListView : View := λ request w,
  let queryset := filter_archived false (objects_all (products (db w))) in
  (Return (render "shopapp/products-list.html"
             (list_context "products" (ProductList queryset))), w).

(** [self.object.archived = True]. *)
Definition set_archived (b : bool) (p : Product) : Product :=
  mk_product (name p) (price p) (description p) (discount p) b (preview p).

(** [ProductDeleteView.form_valid]. *)
Definition ProductDeleteView_form_valid (object : instance Product)
  : World → except Response * World := λ w,
  let success_url := reverse "shopapp:products_list" in
  let object := (object.1, set_archived true object.2) in
  let w := mk_world (save_product object (db w)) (session w) in
  (Return (HttpResponseRedirect success_url), w).

(** [ProductDeleteView.post]: [BaseDeleteView.post] fetches the object
    and, the confirmation form having no field, calls [form_valid]. *)
Definition ProductDeleteView_post (pk : Z) : View := λ request w,
  match get_object (products (db w)) pk with
  | Return object => ProductDeleteView_form_valid object w
  | Raise e => (Raise e, w)
  end.

(** [Order.objects.select_related("user").prefetch_related("products")]:
    every order, its products loaded with it. *)
Definition orders_queryset (s : Store)
  : list (instance Order * list (instance Product)) :=
  map (λ o, (o, order_products_all s o.1)) (objects_all (orders s)).

(** [OrdersListView]. *)
Definition OrdersListView : View :=
  LoginRequiredMixin LOGIN_URL (λ request w,
    (Return (render "shopapp/order_list.html"
               (list_context "order_list" (OrderList (orders_queryset (db w))))), w)).

(** [OrderDetailView], for the order [pk] of the URL. *)
Definition OrderDetailView (pk : Z) : View :=
  PermissionRequiredMixin LOGIN_URL ["shopapp.view_order"] (λ request w,
    match get_object (orders (db w)) pk with
    | Return object =>
        let o := OrderObject object (order_products_all (db w) object.1) in
        (Return (render "shopapp/order_detail.html" [("object", o); ("order", o)]), w)
    | Raise e => (Raise e, w)
    end).

(** The dictionary of one product in the product export. *)
Definition product_data (product : instance Product) : Py.value :=
  Py.PyDict [("pk", Py.PyInt product.1);
             ("name", Py.PyStr (name product.2));
             ("price", Py.PyDecimal (price product.2));
             ("archived", Py.PyBool (archived product.2))].

(** [ProductsDataExportView.get]. *)
Definition ProductsDataExportView_get : View := λ request w,
  let products := order_by_pk (objects_all (products (db w))) in
  let products_data := map product_data products in
  (Return (JsonResponse (Py.PyDict [("products", Py.PyList products_data)])), w).

(** [OrdersDataExportView.test_func]. *)
Definition OrdersDataExportView_test_func (request : HttpRequest) : bool :=
  is_staff (user request).

(** The dictionary appended for a product of an order. *)
Definition order_product_data (product : instance Product) : Py.value :=
  Py.PyDict [("name", Py.PyStr (name product.2));
             ("price", Py.PyStr (Py.str_decimal (price product.2)))].

(** The inner loop of [OrdersDataExportView.get]:
    [for product in products: if product in order.products.all():
     order_product_map[order.pk].append(...)]. *)
Fixpoint append_products (s : Store) (order : instance Order)
    (products : list (instance Product))
    (order_product_map : gmap Z (list Py.value))
  : except (gmap Z (list Py.value)) :=
  match products with
  | [] => Return order_product_map
  | product :: rest =>
      if model_in product (order_products_all s order.1)
      then match order_product_map !! order.1 with
           | Some l =>
               append_products s order rest
                 (<[order.1 := l ++ [order_product_data product]]> order_product_map)
           | None => Raise KeyError
           end
      else append_products s order rest order_product_map
  end.

(** The outer loop: [for order in orders: order_product_map[order.pk] = []]
    and the inner loop. *)
Fixpoint build_order_product_map (s : Store) (orders : list (instance Order))
    (products : list (instance Product))
    (order_product_map : gmap Z (list Py.value))
  : except (gmap Z (list Py.value)) :=
  match orders with
  | [] => Return order_product_map
  | order :: rest =>
      bind (append_products s order products (<[order.1 := []]> order_product_map))
           (build_order_product_map s rest products)
  end.

(** The dictionary of one order in the order export. *)
Definition order_dict (order : instance Order) (products : list Py.value) : Py.value :=
  Py.PyDict [("pk", Py.PyInt order.1);
             ("delivery_address", Py.PyStr (delivery_address order.2));
             ("created_at", Py.PyStr (Py.str_datetime (created_at order.2)));
             ("user_id", Py.PyInt (user_id order.2));
             ("promocode", Py.PyStr (Py.str_str (promocode order.2)));
             ("products", Py.PyList products)].

(** The comprehension [order_data]; [order_product_map[order.pk]] raises
    [KeyError] on a missing key. *)
Fixpoint order_data (orders : list (instance Order))
    (order_product_map : gmap Z (list Py.value)) : except (list Py.value) :=
  match orders with
  | [] => Return []
  | order :: rest =>
      match order_product_map !! order.1 with
      | Some l =>
          bind (order_data rest order_product_map)
               (λ tl, Return (order_dict order l :: tl))
      | None => Raise KeyError
      end
  end.

(** [OrdersDataExportView.get]. *)
Definition OrdersDataExportView_get : View := λ request w,
  let orders := order_by_pk (objects_all (orders (db w))) in
  let products := order_by_pk (objects_all (products (db w))) in
  (bind (build_order_product_map (db w) orders products ∅) (λ order_product_map,
   bind (order_data orders order_product_map) (λ order_data,
   Return (JsonResponse (Py.PyDict [("orders", Py.PyList order_data)])))), w).

(** [OrdersDataExportView]: the view behind [UserPassesTestMixin]. *)
Definition OrdersDataExportView : View :=
  UserPassesTestMixin LOGIN_URL OrdersDataExportView_test_func
    OrdersDataExportView_get.
End Views.

End Shopapp.

(* ===================================================================== *)
(** ** myauth/views.py *)
(* ===================================================================== *)

Module Myauth.
Import Django.

Section Views.
Variable LOGIN_URL : string.

(** [set_cookie_view], behind [user_passes_test(lambda u: u.is_superuser)]. *)
Definition set_cookie_view : View :=
  user_passes_test LOGIN_URL (λ u, Return (is_superuser u)) (λ request w,
    let response := HttpResponse "Cookie set" in
    let response := set_cookie "fizz" "buzz" 3600 response in
    (Return response, w)).

(** [get_cookie_view]: the body is [f"Cookie value: {value!r}"]. *)
Definition get_cookie_view : View := λ request w,
  let value := default "default value"%string (COOKIES request !! "fizz"%string) in
  (Return (HttpResponse ("Cookie value: " +:+ Py.repr_str value)), w).

(** [set_session_view], behind
    [permission_required("myauth.view_profile", raise_exception=True)]. *)
Definition set_session_view : View :=
  permission_required LOGIN_URL "myauth.view_profile" true (λ request w,
    let w := mk_world (db w) (<["foobar"%string := "spameggs"%string]> (session w)) in
    (Return (HttpResponse "Session set!"), w)).

End Views.

End Myauth.

(* ===================================================================== *)
(** ** The documents the export endpoints are specified to send *)
(* ===================================================================== *)

Module Shapes.
Import Models Django.

(** One product of the product export: [{pk, name, price, archived}], the
    price written as a JSON string. *)
Definition product_json (product : instance Product) : json :=
  JObject [("pk", JNumber product.1);
           ("name", JString (name product.2));
           ("price", JString (Py.str_decimal (price product.2)));
           ("archived", JBool (archived product.2))].

(** One product of an order: [{name, price}], the price a string. *)
Definition order_product_json (product : instance Product) : json :=
  JObject [("name", JString (name product.2));
           ("price", JString (Py.str_decimal (price product.2)))].

(** One order of the order export. *)
Definition order_json (order : instance Order) (products : list (instance Product))
  : json :=
  JObject [("pk", JNumber order.1);
           ("delivery_address", JString (delivery_address order.2));
           ("created_at", JString (Py.str_datetime (created_at order.2)));
           ("user_id", JNumber (user_id order.2));
           ("promocode", JString (promocode order.2));
           ("products", JArray (map order_product_json products))].

(** The rows of [products] that the join table associates with [order_pk]. *)
Definition associated (s : Store) (order_pk : Z) (products : list (instance Product))
  : list (instance Product) :=
  filter (λ p, (order_pk, p.1) ∈ order_products s) products.

(** A row as the product table holds it. *)
Definition stored (s : Store) (p : instance Product) : Prop :=
  products s !! p.1 = Some p.2.

(** What the order export lists for the order [order_pk]. *)
Definition listed (s : Store) (products : list (instance Product)) (order_pk : Z)
  : list Py.value :=
  map Shopapp.order_product_data (associated s order_pk products).

(** The map the outer loop leaves: each order's key bound to its list. *)
Definition filled (s : Store) (ps : list (instance Product))
    (os : list (instance Order)) (m : gmap Z (list Py.value))
  : gmap Z (list Py.value) :=
  foldl (λ m (o : instance Order), <[o.1 := listed s ps o.1]> m) m os.

(** [sub in s] for strings. *)
Definition contains (sub s : string) : bool :=
  match index 0 sub s with Some _ => true | None => false end.

(** A character [repr] copies unchanged between single quotes. *)
Definition plain_char (c : ascii) : bool :=
  let n := N_of_ascii c in
  (32 <=? n)%N && (n <? 127)%N
  && negb (Ascii.eqb c Py.squote) && negb (Ascii.eqb c Py.backslash).

Fixpoint plain (s : string) : bool :=
  match s with
  | EmptyString => true
  | String c s' => plain_char c && plain s'
  end.

End Shapes.

(* ===================================================================== *)
(** ** shopapp/views.py: the detail, create and update views *)
(* ===================================================================== *)

Module Crud.
Import Models Django Shopapp.

(** The page of a [DetailView] on products: the template and the context
    (the view instance under ["view"] is left out). *)
Record DetailPage := mk_detail_page {
  page_template : string;
  page_context : list (string * instance Product)
}.

(** [form.cleaned_data] of the model form over the fields
    ["name", "price", "description", "discount", "preview"]: the values of
    a submission that validated.  [form_preview] is the name the image is
    stored under, if there is one. *)
Record ProductForm := mk_product_form {
  form_name : string;
  form_price : Py.decimal;
  form_description : string;
  form_discount : Z;
  form_preview : option string
}.

(** [form.cleaned_data] of the order form over the fields
    ['user', 'promocode', 'delivery_address', 'products']: a user key and
    the keys of the chosen products. *)
Record OrderForm := mk_order_form {
  form_user : Z;
  form_promocode : string;
  form_delivery_address : string;
  form_products : gset Z
}.

Section Views.
Variable reverse : string → string.
(** [reverse(viewname, kwargs={"pk": pk})]; the URL configuration is not
    among the sources. *)
Variable reverse_pk : string → Z → string.

(** [ProductDetailsView]: [DetailView.get] for the product [pk] of the
    URL. *)
Definition ProductDetailsView (pk : Z) (request : HttpRequest) (w : World)
  : except DetailPage * World :=
  match get_object (products (db w)) pk with
  | Return object =>
      (Return (mk_detail_page "shopapp/products-details.html"
                 [("object", object); ("product", object)]), w)
  | Raise e => (Raise e, w)
  end.



(** The model form of [ProductUpdateView] writes its five fields into the
    instance; [archived] is not among them. *)
Definition update_fields (form : ProductForm) (p : Product) : Product :=
  mk_product (form_name form) (form_price form) (form_description form)
    (form_discount form) (archived p) (form_preview form).

(** [ProductUpdateView.get_success_url]. *)
Definition ProductUpdateView_get_success_url (object : instance Product) : string :=
  reverse_pk "shopapp:product_details" object.1.

(** [ProductUpdateView], once the form has validated: the instance is
    saved with the form's values and the answer redirects to
    [get_success_url()]. *)
Definition ProductUpdateView_form_valid (object : instance Product)
    (form : ProductForm) : World → except Response * World := λ w,
  let object := (object.1, update_fields form object.2) in
  let w := mk_world (save_product object (db w)) (session w) in
  (Return (HttpResponseRedirect (ProductUpdateView_get_success_url object)), w).

(** [ProductUpdateView.post] with a submission that validates:
    [BaseUpdateView.post] fetches the object first. *)
Definition ProductUpdateView_post (pk : Z) (form : ProductForm) : View := λ request w,
  match get_object (products (db w)) pk with
  | Return object => ProductUpdateView_form_valid object form w
  | Raise e => (Raise e, w)
  end.

(** The row [form.save()] inserts for an order; [created_at] is the time
    of the insertion. *)
Definition construct_order (now : Py.datetime) (form : OrderForm) : Order :=
  mk_order (form_delivery_address form) (form_promocode form) now (form_user form).

(** [OrderCreateView], once the form has validated: the order is inserted
    under the key [new_pk] the database assigns, one join row is added per
    chosen product, and the answer redirects to [success_url]. *)
Definition OrderCreateView_form_valid (new_pk : Z) (now : Py.datetime)
    (form : OrderForm) : World → except Response * World := λ w,
  let s := db w in
  let s := mk_store (products s)
             (<[new_pk := construct_order now form]> (orders s))
             (order_products s ∪ set_map (λ p : Z, (new_pk, p)) (form_products form)) in
  (Return (HttpResponseRedirect (reverse "shopapp:orders_list")), mk_world s (session w)).
End Views.

(** What the delete action on the stored product [(pk, p)] leaves behind. *)
Definition archived_world (w : World) (pk : Z) (p : Product) : World :=
  mk_world (save_product (pk, set_archived true p) (db w)) (session w).

End Crud.

(* ===================================================================== *)
(** ** shopapp/tests.py: the export tests *)
(* ===================================================================== *)

Module Tests.
Import Models Django Shopapp.

(** [json.loads], on a JSON value. *)
Fixpoint json_loads (j : json) : Py.value :=
  match j with
  | JNull => Py.PyNone
  | JBool b => Py.PyBool b
  | JNumber z => Py.PyInt z
  | JString s => Py.PyStr s
  | JArray l => Py.PyList (map json_loads l)
  | JObject l => Py.PyDict (map (λ kv, (kv.1, json_loads kv.2)) l)
  end.

(** [response.json()]. *)
Definition response_json (r : except Response) : option Py.value :=
  json_loads <$> json_body r.

(** [d[key]] of a dictionary. *)
Definition getitem (key : string) (v : Py.value) : option Py.value :=
  match v with Py.PyDict l => assoc key l | _ => None end.

(** The unauthenticated [self.client.get(path)] of a test. *)
Definition client_get (path : string) : HttpRequest := mk_request AnonymousUser ∅ path.

(** One dictionary of [expected_data] in [test_get_products_view]: the
    price is [str(product.price)]. *)
Definition expected_product (product : instance Product) : Py.value :=
  Py.PyDict [("pk", Py.PyInt product.1);
             ("name", Py.PyStr (name product.2));
             ("price", Py.PyStr (Py.str_decimal (price product.2)));
             ("archived", Py.PyBool (archived product.2))].

(** [expected_data] of [ProductsExportViewTestCase.test_get_products_view]. *)
Definition expected_products_data (w : World) : list Py.value :=
  let products := order_by_pk (objects_all (products (db w))) in
  map expected_product products.

(** [expected_data] of [OrdersExportTestCase.test_get_orders_view]: the
    test repeats the loops and the comprehension of the view, word for
    word. *)
Definition expected_orders_data (w : World) : except (list Py.value) :=
  let orders := order_by_pk (objects_all (orders (db w))) in
  let products := order_by_pk (objects_all (products (db w))) in
  bind (build_order_product_map (db w) orders products ∅) (λ order_product_map,
  order_data orders order_product_map).

End Tests.

(* ===================================================================== *)
(** ** A small shop, for examples *)
(* ===================================================================== *)

Module Fixtures.
Import Models Django.

Definition laptop : Product :=
  mk_product "Laptop" (Py.mk_decimal false 199999 (-2)) "A thin laptop" 0 false None.
Definition desktop : Product :=
  mk_product "Desktop" (Py.mk_decimal false 299900 (-2)) "A tower" 10 true None.
Definition phone : Product :=
  mk_product "Smartphone" (Py.mk_decimal false 99950 (-2)) "" 5 false
    (Some "products/product_7/preview/phone.png"%string).

Definition noon : Py.datetime := Py.mk_datetime 2024 3 9 12 0 0 0 (Some 0).

Definition order1 : Order := mk_order "1 Main St" "SALE10" noon 1.
Definition order2 : Order := mk_order "2 Side St" "" noon 2.

Definition shop : Store :=
  mk_store (<[7 := phone]> (<[2 := desktop]> (<[5 := laptop]> ∅)))
           (<[4 := order2]> (<[3 := order1]> ∅))
           ({[ (3, 7); (3, 5); (4, 2) ]}).

Definition world : World := mk_world shop ∅.

Definition login_url : string := "/accounts/login/".

(** The two names the views reverse, as a URL configuration would map them. *)
Definition reverse (viewname : string) : string :=
  if String.eqb viewname "shopapp:products_list" then "/shop/products/"
  else if String.eqb viewname "shopapp:orders_list" then "/shop/orders/"
  else "/".

Definition staff : User := mk_user 1 true true false ∅.
Definition admin : User := mk_user 2 true true true ∅.
Definition customer : User := mk_user 3 true false false ∅.
Definition clerk : User := mk_user 4 true false false {[ "shopapp.view_order"%string ]}.

Definition get (u : RequestUser) (path : string) : HttpRequest :=
  mk_request u ∅ path.

(** A cookie value with a backslash: the three characters a, backslash, b. *)
Definition backslashed : string := String "a" (String Py.backslash "b").

Definition get_with_cookie (value : string) : HttpRequest :=
  mk_request AnonymousUser {[ "fizz"%string := value ]} "/myauth/cookie/get/".

End Fixtures.

(* ===================================================================== *)
(** ** More of the small shop *)
(* ===================================================================== *)

Module MoreFixtures.
Import Models Django Crud Fixtures.

(** The detail page of a product, as a URL configuration would map it. *)
Definition reverse_pk (viewname : string) (pk : Z) : string :=
  if String.eqb viewname "shopapp:product_details"
  then "/shop/products/" +:+ Py.str_Z pk +:+ "/"
  else "/".

Definition chair_form : ProductForm :=
  mk_product_form "Chair" (Py.mk_decimal false 12345 (-2)) "A good chair" 10 None.

Definition evening : Py.datetime := Py.mk_datetime 2024 3 9 18 30 0 0 (Some 0).

(** An order form choosing the desktop and the laptop. *)
Definition order_form : OrderForm := mk_order_form 3 "SPRING" "3 High St" {[ 2; 5 ]}.

(** The shop with one more order, to which no product is joined. *)
Definition shop_with_empty_order : Store :=
  mk_store (products shop) (<[6 := order1]> (orders shop)) (order_products shop).

Definition world_with_empty_order : World := mk_world shop_with_empty_order ∅.

Definition viewer : User := mk_user 5 true false false {[ "myauth.view_profile"%string ]}.

End MoreFixtures.

(* ===================================================================== *)
(** ** The builtins on examples *)
(* ===================================================================== *)

Example ex_str_decimal_price :
  Py.str_decimal (Py.mk_decimal false 12345 (-2)) = "123.45"%string.
Proof. reflexivity. Qed.
Example ex_str_decimal_zero :
  Py.str_decimal (Py.mk_decimal false 0 (-2)) = "0.00"%string.
Proof. reflexivity. Qed.
Example ex_str_decimal_small :
  Py.str_decimal (Py.mk_decimal true 5 (-2)) = "-0.05"%string.
Proof. reflexivity. Qed.
Example ex_str_decimal_sci :
  Py.str_decimal (Py.mk_decimal false 1 3) = "1E+3"%string.
Proof. reflexivity. Qed.
Example ex_str_decimal_sci2 :
  Py.str_decimal (Py.mk_decimal false 123 (-10)) = "1.23E-8"%string.
Proof. reflexivity. Qed.
Example ex_str_datetime_utc :
  Py.str_datetime (Py.mk_datetime 2024 1 5 9 3 7 1500 (Some 0))
  = "2024-01-05 09:03:07.001500+00:00"%string.
Proof. reflexivity. Qed.
Example ex_repr_buzz : Py.repr_str "buzz" = "'buzz'"%string.
Proof. reflexivity. Qed.
Example ex_quote_path : Py.quote "/" "/shop/orders/?a=b c" = "/shop/orders/%3Fa%3Db%20c"%string.
Proof. reflexivity. Qed.
Example ex_repr_backslashed :
  Py.repr_str Fixtures.backslashed
  = String "'" (String "a" (String Py.backslash (String Py.backslash "b'"))).
Proof. reflexivity. Qed.
Example ex_repr_apostrophe :
  Py.repr_str "it's" = String Py.dquote ("it's" +:+ String Py.dquote EmptyString).
Proof. reflexivity. Qed.
Example ex_repr_newline :
  Py.repr_str (String "010" EmptyString) = String "'" (String Py.backslash "n'").
Proof. reflexivity. Qed.
Example ex_contains_buzz : Shapes.contains "buzz" "Cookie value: 'buzz'" = true.
Proof. reflexivity. Qed.
Example ex_contains_other : Shapes.contains "fizz" "Cookie value: 'buzz'" = false.
Proof. reflexivity. Qed.

(* ===================================================================== *)
(** ** Facts about the queries *)
(* ===================================================================== *)

Section QueryFacts.
Import Models.
Context {A : Type}.

#[local] Instance pk_le_transitive : Transitive (@pk_le A).
Proof. intros x y z. unfold pk_le. lia. Qed.

#[local] Instance pk_le_total : Total (@pk_le A).
Proof. intros x y. unfold pk_le. lia. Qed.

Lemma order_by_pk_Permutation (qs : list (instance A)) : order_by_pk qs ≡ₚ qs.
Proof. apply merge_sort_Permutation. Qed.

Lemma elem_of_objects_all (t : gmap Z A) pk row :
  (pk, row) ∈ objects_all t ↔ t !! pk = Some row.
Proof. apply elem_of_map_to_list. Qed.

Lemma elem_of_order_by_pk (t : gmap Z A) pk row :
  (pk, row) ∈ order_by_pk (objects_all t) ↔ t !! pk = Some row.
Proof. by rewrite order_by_pk_Permutation, elem_of_objects_all. Qed.

Lemma length_order_by_pk (t : gmap Z A) :
  length (order_by_pk (objects_all t)) = size t.
Proof.
  rewrite (Permutation_length (order_by_pk_Permutation _)).
  apply length_map_to_list.
Qed.

Lemma sorted_distinct_ascending (qs : list (instance A)) :
  StronglySorted pk_le qs → NoDup qs.*1 → ascending qs.
Proof.
  induction 1 as [|x l Hl IH Hx]; intros Hnd; [constructor|].
  rewrite fmap_cons in Hnd. apply NoDup_cons in Hnd as [Hnotin Hnd].
  constructor; [by apply IH|].
  rewrite Forall_forall in Hx |- *. intros y Hy.
  assert (x.1 ≠ y.1).
  { intros Heq. apply Hnotin. rewrite Heq. apply list_elem_of_fmap.
    by exists y. }
  specialize (Hx y Hy). unfold pk_le in Hx. lia.
Qed.

Lemma order_by_pk_ascending (t : gmap Z A) :
  ascending (order_by_pk (objects_all t)).
Proof.
  apply sorted_distinct_ascending.
  - apply (StronglySorted_merge_sort pk_le).
  - rewrite order_by_pk_Permutation. apply NoDup_fst_map_to_list.
Qed.
End QueryFacts.

(* ===================================================================== *)
(** ** The loops of the order export *)
(* ===================================================================== *)

Section ExportLoops.
Import Models Django Shopapp Shapes.
Variable s : Store.

Lemma model_in_order_products_all (order_pk : Z) (p : instance Product) :
  stored s p →
  model_in p (order_products_all s order_pk)
  = bool_decide ((order_pk, p.1) ∈ order_products s).
Proof.
  intros Hp. unfold model_in, order_products_all.
  destruct (bool_decide_reflect ((order_pk, p.1) ∈ order_products s)) as [Hin|Hnin].
  - apply existsb_exists. exists p. split; [|apply Z.eqb_refl].
    apply list_elem_of_In, list_elem_of_filter. split; [done|].
    destruct p as [pk row]. by apply elem_of_objects_all.
  - apply not_true_is_false. intros (q & Hq & Heq)%existsb_exists.
    apply Z.eqb_eq in Heq.
    apply list_elem_of_In, list_elem_of_filter in Hq as [Hj _].
    rewrite Heq in Hj. done.
Qed.

Lemma append_products_spec (order : instance Order) (ps : list (instance Product)) :
  Forall (stored s) ps →
  ∀ (m : gmap Z (list Py.value)) l,
    m !! order.1 = Some l →
    append_products s order ps m
    = Return (<[order.1 := l ++ listed s ps order.1]> m).
Proof.
  unfold listed, associated.
  induction 1 as [|p ps Hp Hps IH]; intros m l Hm; simpl.
  - rewrite app_nil_r. by rewrite insert_id.
  - rewrite (model_in_order_products_all _ _ Hp).
    destruct (bool_decide_reflect ((order.1, p.1) ∈ order_products s)) as [Hin|Hnin].
    + rewrite Hm. rewrite (IH _ (l ++ [order_product_data p])).
      * rewrite insert_insert_eq. rewrite filter_cons_True by done.
        simpl. by rewrite <- app_assoc.
      * by rewrite lookup_insert_eq.
    + rewrite filter_cons_False by done. by apply IH.
Qed.

Lemma build_order_product_map_spec (ps : list (instance Product)) :
  Forall (stored s) ps →
  ∀ (os : list (instance Order)) (m : gmap Z (list Py.value)),
    build_order_product_map s os ps m = Return (filled s ps os m).
Proof.
  intros Hps os. induction os as [|o os IH]; intros m; simpl; [done|].
  rewrite (append_products_spec o ps Hps _ []) by apply lookup_insert_eq.
  simpl. rewrite insert_insert_eq. apply IH.
Qed.

Lemma lookup_filled (ps : list (instance Product)) (os : list (instance Order))
    (m : gmap Z (list Py.value)) (k : Z) :
  filled s ps os m !! k
  = if bool_decide (k ∈ os.*1) then Some (listed s ps k) else m !! k.
Proof.
  revert m. induction os as [|o os IH]; intros m; [done|].
  unfold filled in IH |- *. rewrite fmap_cons. cbn [foldl]. rewrite IH.
  destruct (bool_decide_reflect (k ∈ os.*1)) as [Hin|Hnin].
  - rewrite bool_decide_eq_true_2; [done|]. by apply list_elem_of_further.
  - destruct (decide (k = o.1)) as [->|Hne].
    + rewrite lookup_insert_eq.
      rewrite bool_decide_eq_true_2; [done|]. apply list_elem_of_here.
    + rewrite lookup_insert_ne by done.
      rewrite bool_decide_eq_false_2; [done|].
      rewrite not_elem_of_cons. done.
Qed.

Lemma order_data_spec (ps : list (instance Product)) (os : list (instance Order))
    (m : gmap Z (list Py.value)) :
  (∀ o, o ∈ os → m !! o.1 = Some (listed s ps o.1)) →
  order_data os m = Return (map (λ o, order_dict o (listed s ps o.1)) os).
Proof.
  induction os as [|o os IH]; intros Hm; simpl; [done|].
  rewrite (Hm o) by apply list_elem_of_here.
  rewrite IH; [done|]. intros o' Ho'. apply Hm. by apply list_elem_of_further.
Qed.

Lemma encode_order_dict (ps : list (instance Product)) (o : instance Order) :
  encode (order_dict o (listed s ps o.1)) = order_json o (associated s o.1 ps).
Proof.
  unfold order_dict, order_json, listed. simpl. by rewrite map_map.
Qed.

(** The two loops and the comprehension together never raise, and give
    one dictionary per order. *)
Lemma export_loops (ps : list (instance Product)) (os : list (instance Order)) :
  Forall (stored s) ps →
  bind (build_order_product_map s os ps ∅) (λ m, order_data os m)
  = Return (map (λ o, order_dict o (listed s ps o.1)) os).
Proof.
  intros Hps. rewrite (build_order_product_map_spec ps Hps). simpl.
  apply order_data_spec. intros o Ho. rewrite lookup_filled.
  rewrite bool_decide_eq_true_2; [done|].
  apply list_elem_of_fmap. by exists o.
Qed.
End ExportLoops.

(* ===================================================================== *)
(** ** The shop views *)
(* ===================================================================== *)

Section ShopappSpec.
Import Models Django Shopapp Shapes.
Variable LOGIN_URL : string.
Variable reverse : string → string.

Lemma ascending_filter {A} (P : instance A → Prop) `{∀ x, Decision (P x)}
    (qs : list (instance A)) :
  ascending qs → ascending (filter P qs).
Proof.
  unfold ascending. induction 1 as [|x l Hl IH Hx]; [constructor|].
  rewrite filter_cons. destruct (decide (P x)); [|done].
  constructor; [done|].
  rewrite Forall_forall in Hx |- *.
  intros y [_ Hy]%list_elem_of_filter. by apply Hx.
Qed.

Lemma stored_order_by_pk (s : Store) :
  Forall (stored s) (order_by_pk (objects_all (products s))).
Proof.
  apply Forall_forall. intros [pk row] Hin. by apply elem_of_order_by_pk in Hin.
Qed.

Lemma encode_product_data (product : instance Product) :
  encode (product_data product) = product_json product.
Proof. reflexivity. Qed.

(** C1, as amended.  The product export answers 200 with the document
    [{"products": [...]}] holding one entry per stored product, archived
    or not, in ascending primary-key order; each entry is exactly
    [{pk, name, price, archived}], and the price, a [Decimal] in the
    view's dictionary, is written by the encoder as a JSON string. *)
Theorem products_export_document (request : HttpRequest) (w : World) :
  let rows := order_by_pk (objects_all (products (db w))) in
  ProductsDataExportView_get request w
  = (Return (mk_response 200
               (Json (JObject [("products", JArray (map product_json rows))]))
               None ∅), w)
  ∧ ascending rows
  ∧ (∀ pk row, (pk, row) ∈ rows ↔ products (db w) !! pk = Some row)
  ∧ length rows = size (products (db w))
  ∧ (∀ p, member "price" (product_json p)
          = Some (JString (Py.str_decimal (price p.2)))).
Proof.
  intros rows. split; [|split; [|split; [|split]]].
  - unfold ProductsDataExportView_get, JsonResponse. simpl.
    rewrite map_map. fold rows.
    by rewrite (map_ext _ product_json encode_product_data).
  - apply order_by_pk_ascending.
  - intros pk row. apply elem_of_order_by_pk.
  - apply length_order_by_pk.
  - reflexivity.
Qed.

(** C3.  For a staff requester the order export answers 200 with the
    orders in ascending primary-key order, each as
    [{pk, delivery_address, created_at, user_id, promocode, products}]
    with [created_at] and [promocode] as strings; [products] lists the
    products of the table, in ascending primary-key order, that the
    order is associated with, each as [{name, price}] with the price a
    string. *)
Theorem orders_export_document (request : HttpRequest) (w : World) :
  is_staff (user request) = true →
  let os := order_by_pk (objects_all (orders (db w))) in
  let ps := order_by_pk (objects_all (products (db w))) in
  OrdersDataExportView LOGIN_URL request w
  = (Return (mk_response 200
               (Json (JObject [("orders",
                  JArray (map (λ o, order_json o (associated (db w) o.1 ps)) os))]))
               None ∅), w)
  ∧ ascending os
  ∧ (∀ pk row, (pk, row) ∈ os ↔ orders (db w) !! pk = Some row)
  ∧ (∀ order_pk, ascending (associated (db w) order_pk ps))
  ∧ (∀ order_pk pk row,
       (pk, row) ∈ associated (db w) order_pk ps
       ↔ products (db w) !! pk = Some row ∧ (order_pk, pk) ∈ order_products (db w)).
Proof using LOGIN_URL.
  intros Hstaff os ps. split; [|split; [|split; [|split]]].
  - unfold OrdersDataExportView, UserPassesTestMixin,
      OrdersDataExportView_test_func.
    rewrite Hstaff. unfold OrdersDataExportView_get. fold os ps.
    pose proof (export_loops (db w) ps os (stored_order_by_pk (db w))) as Hloops.
    destruct (build_order_product_map (db w) os ps ∅) as [m|e];
      simpl in Hloops |- *; [|discriminate].
    rewrite Hloops. simpl. unfold JsonResponse. simpl.
    rewrite map_map.
    by rewrite (map_ext _ (λ o, order_json o (associated (db w) o.1 ps))
                  (encode_order_dict (db w) ps)).
  - apply order_by_pk_ascending.
  - intros pk row. apply elem_of_order_by_pk.
  - intros order_pk. apply ascending_filter, order_by_pk_ascending.
  - intros order_pk pk row. unfold associated.
    rewrite list_elem_of_filter. unfold ps. rewrite elem_of_order_by_pk.
    simpl. split; intros [? ?]; split; assumption.
Qed.

(** C4.  The context of the product list holds, under [products],
    exactly the stored products that are not archived, each once. *)
Theorem products_list_active (request : HttpRequest) (w : World) :
  ∃ l,
    ProductsListView request w
    = (Return (render "shopapp/products-list.html"
                 (list_context "products" (ProductList l))), w)
    ∧ assoc "products" (list_context "products" (ProductList l))
      = Some (ProductList l)
    ∧ NoDup l
    ∧ (∀ pk row, (pk, row) ∈ l
                 ↔ products (db w) !! pk = Some row ∧ archived row = false).
Proof using Type.
  exists (filter_archived false (objects_all (products (db w)))).
  split; [reflexivity|]. split; [reflexivity|]. split.
  - apply NoDup_filter, NoDup_map_to_list.
  - intros pk row. unfold filter_archived. rewrite list_elem_of_filter.
    rewrite elem_of_objects_all. simpl. split; intros [? ?]; split; assumption.
Qed.

(** C5.  Deleting a stored product answers with a redirect to the product
    list and keeps the row: it is still found under its key, archived,
    with every other column as before; no other row, order or session
    entry changes. *)
Theorem delete_archives (request : HttpRequest) (w : World) (pk : Z) (p : Product) :
  products (db w) !! pk = Some p →
  ∃ w' p',
    ProductDeleteView_post reverse pk request w
    = (Return (HttpResponseRedirect (reverse "shopapp:products_list")), w')
    ∧ products (db w') !! pk = Some p'
    ∧ archived p' = true
    ∧ name p' = name p ∧ price p' = price p ∧ description p' = description p
    ∧ discount p' = discount p ∧ preview p' = preview p
    ∧ (∀ pk', pk' ≠ pk → products (db w') !! pk' = products (db w) !! pk')
    ∧ orders (db w') = orders (db w)
    ∧ order_products (db w') = order_products (db w)
    ∧ session w' = session w.
Proof.
  intros Hp. unfold ProductDeleteView_post, get_object. rewrite Hp.
  unfold ProductDeleteView_form_valid. simpl.
  eexists _, (set_archived true p). split; [reflexivity|]. simpl.
  split; [apply lookup_insert_eq|]. repeat split.
  intros pk' Hne. by apply lookup_insert_ne.
Qed.

Lemma set_archived_id (p : Product) : archived p = true → set_archived true p = p.
Proof. destruct p; simpl; intros ->; reflexivity. Qed.

(** C9.  Deleting a product that is already archived changes nothing in
    the store or the session, and answers with the same redirect. *)
Theorem delete_archived_idempotent (request : HttpRequest) (w : World) (pk : Z)
    (p : Product) :
  products (db w) !! pk = Some p →
  archived p = true →
  ProductDeleteView_post reverse pk request w
  = (Return (HttpResponseRedirect (reverse "shopapp:products_list")), w).
Proof.
  intros Hp Harch. unfold ProductDeleteView_post, get_object. rewrite Hp.
  unfold ProductDeleteView_form_valid, save_product. simpl.
  rewrite (set_archived_id p Harch). rewrite (insert_id _ _ _ Hp).
  by destruct w as [[? ? ?] ?].
Qed.

(** Deleting twice is deleting once, whatever the product was. *)
Lemma delete_twice (request : HttpRequest) (w : World) (pk : Z) :
  ProductDeleteView_post reverse pk request
    (ProductDeleteView_post reverse pk request w).2
  = ProductDeleteView_post reverse pk request w.
Proof.
  unfold ProductDeleteView_post, get_object.
  destruct (products (db w) !! pk) as [p|] eqn:Hp; simpl.
  - rewrite lookup_insert_eq. unfold ProductDeleteView_form_valid, save_product.
    simpl. by rewrite insert_insert_eq.
  - by rewrite Hp.
Qed.

(** C6.  A requester who is not staff gets no order export: the test
    fails, the answer is the denial of [handle_no_permission] (403 for a
    logged-in user, the redirect to the login page otherwise), it carries
    no JSON document, and nothing changes. *)
Theorem orders_export_staff_only (request : HttpRequest) (w : World) :
  is_staff (user request) = false →
  ∃ r,
    OrdersDataExportView LOGIN_URL request w = (r, w)
    ∧ r = (if is_authenticated (user request) then Raise PermissionDenied
           else Return (redirect_to_login LOGIN_URL (full_path request)))
    ∧ json_body r = None
    ∧ (status r = 403 ∨ status r = 302).
Proof.
  intros Hstaff. eexists. split.
  - unfold OrdersDataExportView, UserPassesTestMixin,
      OrdersDataExportView_test_func. rewrite Hstaff. reflexivity.
  - unfold handle_no_permission. simpl.
    destruct (is_authenticated (user request)); simpl; auto.
Qed.

Lemma prefix_append (a b : string) : String.prefix a (a +:+ b) = true.
Proof.
  induction a as [|c a IH]; simpl; [by destruct b|].
  destruct (ascii_dec c c); [apply IH|done].
Qed.

Lemma contains_append (a b : string) : contains a (a +:+ b) = true.
Proof.
  unfold contains. pose proof (prefix_append a b) as Hpre.
  destruct (a +:+ b) as [|c rest] eqn:Hab.
  - destruct a; [done|discriminate Hab].
  - simpl index. simpl in Hpre. by rewrite Hpre.
Qed.

(** C7.  An unauthenticated request to the order list is answered with a
    302 whose target is the login path followed by the [next] query, so
    the target contains the login path; the body is empty and nothing
    changes. *)
Theorem orders_list_login_required (request : HttpRequest) (w : World) :
  is_authenticated (user request) = false →
  ∃ r url,
    OrdersListView LOGIN_URL request w = (Return r, w)
    ∧ status_code r = 302
    ∧ location r = Some url
    ∧ url = LOGIN_URL +:+ "?next=" +:+ Py.quote "/" (full_path request)
    ∧ contains LOGIN_URL url = true
    ∧ content r = Text "".
Proof.
  intros Hanon. unfold OrdersListView, LoginRequiredMixin, handle_no_permission.
  rewrite Hanon. simpl. eexists _, _. split; [reflexivity|]. simpl.
  split; [reflexivity|]. split; [reflexivity|]. split; [reflexivity|].
  split; [apply contains_append|reflexivity].
Qed.

(** The order detail view, behind [PermissionRequiredMixin], refuses a
    logged-in requester without [shopapp.view_order]. *)
Lemma order_detail_forbidden (request : HttpRequest) (w : World) (pk : Z) :
  is_authenticated (user request) = true →
  has_perm (user request) "shopapp.view_order" = false →
  OrderDetailView LOGIN_URL pk request w = (Raise PermissionDenied, w).
Proof.
  intros Hauth Hperm.
  unfold OrderDetailView, PermissionRequiredMixin, handle_no_permission.
  simpl. rewrite Hperm, Hauth. reflexivity.
Qed.
End ShopappSpec.

(* ===================================================================== *)
(** ** The auth views *)
(* ===================================================================== *)

Section MyauthSpec.
Import Django Myauth Shapes.
Variable LOGIN_URL : string.

Lemma repr_char_plain (c : ascii) :
  plain_char c = true → Py.repr_char Py.squote c = String c EmptyString.
Proof.
  destruct c as [[] [] [] [] [] [] [] []]; vm_compute; intros H;
    first [reflexivity | discriminate H].
Qed.

Lemma plain_char_not_squote (c : ascii) :
  plain_char c = true → Ascii.eqb c Py.squote = false.
Proof.
  unfold plain_char. destruct (Ascii.eqb c Py.squote); [|done].
  rewrite andb_false_r. simpl. done.
Qed.

Lemma repr_body_plain (v : string) :
  plain v = true → Py.repr_body Py.squote v = v.
Proof.
  induction v as [|c v IH]; simpl; [done|].
  intros [Hc Hv]%andb_prop. rewrite (repr_char_plain c Hc), (IH Hv). done.
Qed.

Lemma contains_squote_plain (v : string) :
  plain v = true → Py.contains_char Py.squote v = false.
Proof.
  induction v as [|c v IH]; simpl; [done|].
  intros [Hc Hv]%andb_prop. by rewrite (plain_char_not_squote c Hc), (IH Hv).
Qed.

(** [repr] of a plain string is the string between single quotes. *)
Lemma repr_str_plain (v : string) :
  plain v = true → Py.repr_str v = "'" +:+ v +:+ "'".
Proof.
  intros Hv. unfold Py.repr_str.
  rewrite (contains_squote_plain v Hv). simpl.
  by rewrite (repr_body_plain v Hv).
Qed.

(** C10, as amended.  The cookie-get view has no access gate: whoever
    asks, it answers 200 with the body [Cookie value: ] followed by the
    [repr] of the [fizz] cookie, or of ["default value"] without one;
    that is the value itself between single quotes when the value is
    plain (printable ASCII, no single quote, no backslash).  It sets no
    cookie and changes neither the store nor the session. *)
Theorem get_cookie_view_open (request : HttpRequest) (w : World) :
  let value := default "default value"%string (COOKIES request !! "fizz"%string) in
  get_cookie_view request w
  = (Return (mk_response 200 (Text ("Cookie value: " +:+ Py.repr_str value)) None ∅), w)
  ∧ (plain value = true → Py.repr_str value = "'" +:+ value +:+ "'")
  ∧ (∀ u, get_cookie_view (mk_request u (COOKIES request) (full_path request)) w
          = get_cookie_view request w).
Proof.
  intros value. split; [reflexivity|]. split; [apply repr_str_plain|].
  reflexivity.
Qed.

(** C8.  A superuser asking the cookie-set view gets a 200 that sets the
    cookie [fizz] to [buzz] with a [max_age] of 3600 seconds, one hour;
    anyone else is redirected to the login page and gets no cookie. *)
Theorem set_cookie_view_superuser_only (request : HttpRequest) (w : World) :
  (is_superuser (user request) = true →
     set_cookie_view LOGIN_URL request w
     = (Return (mk_response 200 (Text "Cookie set") None
                  {[ "fizz"%string := mk_morsel "buzz" (Some 3600) ]}), w))
  ∧ (is_superuser (user request) = false →
     ∃ r, set_cookie_view LOGIN_URL request w = (Return r, w)
          ∧ r = redirect_to_login LOGIN_URL (full_path request)
          ∧ status_code r = 302
          ∧ cookies r = ∅).
Proof.
  unfold set_cookie_view, user_passes_test. split; intros Hsuper; rewrite Hsuper.
  - unfold set_cookie, HttpResponse. simpl. by rewrite insert_empty.
  - eexists. repeat split.
Qed.

(** The session-set view, behind
    [permission_required(..., raise_exception=True)], refuses whoever lacks
    [myauth.view_profile]. *)
Lemma set_session_forbidden (request : HttpRequest) (w : World) :
  has_perm (user request) "myauth.view_profile" = false →
  set_session_view LOGIN_URL request w = (Raise PermissionDenied, w).
Proof.
  intros Hperm. unfold set_session_view, permission_required, user_passes_test.
  simpl. rewrite Hperm. reflexivity.
Qed.

(** C2.  A logged-in requester without the permission a view requires
    ([shopapp.view_order] for the order detail, [myauth.view_profile] for
    the session-set view) is refused with [PermissionDenied], which the
    client sees as a 403, not as a redirect; nothing changes. *)
Theorem permission_required_forbids (request : HttpRequest) (w : World) (pk : Z) :
  is_authenticated (user request) = true →
  (has_perm (user request) "shopapp.view_order" = false →
     Shopapp.OrderDetailView LOGIN_URL pk request w = (Raise PermissionDenied, w))
  ∧ (has_perm (user request) "myauth.view_profile" = false →
     set_session_view LOGIN_URL request w = (Raise PermissionDenied, w))
  ∧ status (Raise PermissionDenied) = 403.
Proof.
  intros Hauth. split; [|split].
  - by apply order_detail_forbidden.
  - apply set_session_forbidden.
  - reflexivity.
Qed.
End MyauthSpec.

(* ===================================================================== *)
(** ** The theorems at the example shop *)
(* ===================================================================== *)

Section Instances.
Import Models Django Shapes Fixtures.

(** The export of the example shop sends the price of its first product
    as the JSON string ["2999.00"], which is not a JSON number. *)
Lemma products_export_price_not_a_number :
  (((json_body (Shopapp.ProductsDataExportView_get
                  (get AnonymousUser "/shop/products/export/") world).1
     ≫= member "products") ≫= item 0) ≫= member "price")
  = Some (JString "2999.00")
  ∧ is_number (JString "2999.00") = false
  ∧ is_string (JString "2999.00") = true.
Proof. repeat split. Qed.

Lemma permission_required_forbids_witness :
  Shopapp.OrderDetailView login_url 3 (get (LoggedIn customer) "/shop/orders/3/") world
  = (Raise PermissionDenied, world)
  ∧ Myauth.set_session_view login_url (get (LoggedIn customer) "/myauth/session/set/") world
    = (Raise PermissionDenied, world).
Proof.
  split.
  - apply (permission_required_forbids login_url
             (get (LoggedIn customer) "/shop/orders/3/") world 3 eq_refl).
    reflexivity.
  - apply (permission_required_forbids login_url
             (get (LoggedIn customer) "/myauth/session/set/") world 3 eq_refl).
    reflexivity.
Defined.

Lemma orders_export_document_witness :
  is_staff (LoggedIn staff) = true
  ∧ json_body (Shopapp.OrdersDataExportView login_url
                 (get (LoggedIn staff) "/shop/orders/export/") world).1
    = Some (JObject [("orders", JArray [
        JObject [("pk", JNumber 3); ("delivery_address", JString "1 Main St");
                 ("created_at", JString "2024-03-09 12:00:00+00:00");
                 ("user_id", JNumber 1); ("promocode", JString "SALE10");
                 ("products", JArray [
                    JObject [("name", JString "Laptop"); ("price", JString "1999.99")];
                    JObject [("name", JString "Smartphone"); ("price", JString "999.50")]])];
        JObject [("pk", JNumber 4); ("delivery_address", JString "2 Side St");
                 ("created_at", JString "2024-03-09 12:00:00+00:00");
                 ("user_id", JNumber 2); ("promocode", JString "");
                 ("products", JArray [
                    JObject [("name", JString "Desktop"); ("price", JString "2999.00")]])]])]).
Proof.
  split; [reflexivity|].
  destruct (orders_export_document login_url
              (get (LoggedIn staff) "/shop/orders/export/") world eq_refl) as [H _].
  rewrite H. reflexivity.
Defined.

Lemma delete_archives_witness :
  products (db world) !! 5 = Some laptop
  ∧ ∃ w' p',
      Shopapp.ProductDeleteView_post reverse 5 (get AnonymousUser "/shop/products/5/archive/") world
      = (Return (HttpResponseRedirect "/shop/products/"), w')
      ∧ products (db w') !! 5 = Some p'
      ∧ archived p' = true
      ∧ name p' = "Laptop"%string.
Proof.
  split; [reflexivity|].
  destruct (delete_archives reverse (get AnonymousUser "/shop/products/5/archive/")
              world 5 laptop eq_refl)
    as (w' & p' & Hpost & Hget & Harch & Hname & _).
  exists w', p'. repeat split; assumption.
Defined.

Lemma delete_archived_idempotent_witness :
  archived desktop = true
  ∧ Shopapp.ProductDeleteView_post reverse 2 (get AnonymousUser "/shop/products/2/archive/") world
    = (Return (HttpResponseRedirect "/shop/products/"), world).
Proof.
  split; [reflexivity|].
  exact (delete_archived_idempotent reverse
           (get AnonymousUser "/shop/products/2/archive/") world 2 desktop
           eq_refl eq_refl).
Defined.

Lemma orders_export_staff_only_witness :
  is_staff (LoggedIn customer) = false
  ∧ ∃ r, Shopapp.OrdersDataExportView login_url
           (get (LoggedIn customer) "/shop/orders/export/") world = (r, world)
         ∧ json_body r = None.
Proof.
  split; [reflexivity|].
  destruct (orders_export_staff_only login_url
              (get (LoggedIn customer) "/shop/orders/export/") world eq_refl)
    as (r & Hview & _ & Hjson & _).
  exists r. split; assumption.
Defined.

Lemma orders_list_login_required_witness :
  ∃ r, Shopapp.OrdersListView login_url (get AnonymousUser "/shop/orders/") world
       = (Return r, world)
       ∧ status_code r = 302
       ∧ location r = Some ("/accounts/login/?next=/shop/orders/"%string).
Proof.
  destruct (orders_list_login_required login_url
              (get AnonymousUser "/shop/orders/") world eq_refl)
    as (r & url & Hview & Hstatus & Hloc & Hurl & _).
  exists r. split; [assumption|]. split; [assumption|].
  rewrite Hloc, Hurl. reflexivity.
Defined.

Lemma set_cookie_view_superuser_only_witness :
  (∃ r, Myauth.set_cookie_view login_url (get (LoggedIn admin) "/myauth/cookie/set/") world
        = (Return r, world)
        ∧ cookies r !! "fizz"%string = Some (mk_morsel "buzz" (Some 3600)))
  ∧ (∃ r, Myauth.set_cookie_view login_url (get (LoggedIn staff) "/myauth/cookie/set/") world
          = (Return r, world)
          ∧ cookies r = ∅).
Proof.
  split.
  - eexists. split.
    + apply (set_cookie_view_superuser_only login_url
               (get (LoggedIn admin) "/myauth/cookie/set/") world). reflexivity.
    + reflexivity.
  - destruct (proj2 (set_cookie_view_superuser_only login_url
                       (get (LoggedIn staff) "/myauth/cookie/set/") world) eq_refl)
      as (r & Hview & _ & _ & Hcookies).
    exists r. split; assumption.
Defined.

Lemma get_cookie_view_open_witness :
  Myauth.get_cookie_view (get_with_cookie "buzz") world
  = (Return (HttpResponse "Cookie value: 'buzz'"), world)
  ∧ Py.repr_str "buzz" = "'buzz'"%string.
Proof.
  destruct (get_cookie_view_open (get_with_cookie "buzz") world) as (Hview & Hrepr & _).
  split; [exact Hview | exact (Hrepr eq_refl)].
Defined.

(** With the cookie [fizz] set to a, backslash, b, the body is the [repr]
    of the value, with the backslash doubled: the value is not in it. *)
Lemma get_cookie_view_escapes :
  COOKIES (get_with_cookie backslashed) !! "fizz"%string = Some backslashed
  ∧ ∃ body,
      Myauth.get_cookie_view (get_with_cookie backslashed) world
      = (Return (HttpResponse body), world)
      ∧ contains backslashed body = false.
Proof. split; [reflexivity|]. eexists. split; reflexivity. Qed.
End Instances.

(* ===================================================================== *)
(** ** More about the queries *)
(* ===================================================================== *)

Section MoreQueryFacts.
Import Models.
Context {A : Type}.

Lemma ascending_NoDup (qs : list (instance A)) : ascending qs → NoDup qs.
Proof.
  unfold ascending. induction 1 as [|x l Hl IH Hx]; [constructor|].
  apply NoDup_cons. split; [|done].
  intros Hin. rewrite Forall_forall in Hx. specialize (Hx x Hin). lia.
Qed.

(** An ascending list is determined by its elements. *)
Lemma ascending_ext (qs1 qs2 : list (instance A)) :
  ascending qs1 → ascending qs2 → (∀ x, x ∈ qs1 ↔ x ∈ qs2) → qs1 = qs2.
Proof.
  intros H1 H2 Hiff.
  apply (StronglySorted_unique_strong (λ x y : instance A, x.1 < y.1)); try done.
  - intros x1 x2 _ _ ? ?. lia.
  - apply NoDup_Permutation; auto using ascending_NoDup.
Qed.

Lemma ascending_map_keys (g : instance A → instance A) (qs : list (instance A)) :
  (∀ x, (g x).1 = x.1) → ascending qs → ascending (map g qs).
Proof.
  intros Hg. unfold ascending. induction 1 as [|x l Hl IH Hx]; simpl; [constructor|].
  constructor; [done|].
  rewrite Forall_forall in Hx |- *. change (map g l) with (g <$> l).
  intros y (z & -> & Hz)%list_elem_of_fmap. rewrite !Hg. by apply Hx.
Qed.

(** Writing a row over a stored one changes that row of the ordered
    query and nothing else. *)
Lemma order_by_pk_overwrite (t : gmap Z A) (pk : Z) (row row' : A) :
  t !! pk = Some row →
  order_by_pk (objects_all (<[pk := row']> t))
  = map (λ r : instance A, if decide (r.1 = pk) then (pk, row') else r)
        (order_by_pk (objects_all t)).
Proof.
  intros Hrow. apply ascending_ext.
  - apply order_by_pk_ascending.
  - apply ascending_map_keys; [|apply order_by_pk_ascending].
    intros x. by destruct (decide (x.1 = pk)).
  - intros [k v]. rewrite elem_of_order_by_pk.
    change (map ?g ?l) with (g <$> l). rewrite list_elem_of_fmap. split.
    + intros Hk. destruct (decide (k = pk)) as [->|Hne].
      * rewrite lookup_insert_eq in Hk. injection Hk as <-.
        exists (pk, row). split.
        -- simpl. by destruct (decide (pk = pk)).
        -- by apply elem_of_order_by_pk.
      * rewrite lookup_insert_ne in Hk by done.
        exists (k, v). split.
        -- simpl. by destruct (decide (k = pk)).
        -- by apply elem_of_order_by_pk.
    + intros ([k0 v0] & Heq & Hin). apply elem_of_order_by_pk in Hin.
      simpl in Heq. destruct (decide (k0 = pk)) as [->|Hne];
        injection Heq as -> ->.
      * apply lookup_insert_eq.
      * by rewrite lookup_insert_ne.
Qed.
End MoreQueryFacts.

(* ===================================================================== *)
(** ** Archiving, seen through the other views *)
(* ===================================================================== *)

Section ArchiveSpec.
Import Models Django Shopapp Shapes Crud.
Variable LOGIN_URL : string.
Variable reverse : string → string.

Lemma products_export_get (request : HttpRequest) (w : World) :
  ProductsDataExportView_get request w
  = (Return (mk_response 200
               (Json (JObject [("products",
                  JArray (map product_json
                            (order_by_pk (objects_all (products (db w))))))]))
               None ∅), w).
Proof.
  unfold ProductsDataExportView_get, JsonResponse. simpl. by rewrite map_map.
Qed.

Lemma orders_export_get (request : HttpRequest) (w : World) :
  OrdersDataExportView_get request w
  = (Return (mk_response 200
               (Json (JObject [("orders",
                  JArray (map (λ o, order_json o
                                 (associated (db w) o.1
                                    (order_by_pk (objects_all (products (db w))))))
                            (order_by_pk (objects_all (orders (db w))))))]))
               None ∅), w).
Proof.
  unfold OrdersDataExportView_get.
  set (os := order_by_pk (objects_all (orders (db w)))).
  set (ps := order_by_pk (objects_all (products (db w)))).
  pose proof (export_loops (db w) ps os) as Hloops.
  assert (Forall (stored (db w)) ps) as Hps.
  { apply Forall_forall. intros [pk row] Hin. by apply elem_of_order_by_pk in Hin. }
  specialize (Hloops Hps).
  destruct (build_order_product_map (db w) os ps ∅) as [m|e];
    simpl in Hloops |- *; [|discriminate].
  rewrite Hloops. simpl. unfold JsonResponse. simpl. rewrite map_map.
  by rewrite (map_ext _ (λ o, order_json o (associated (db w) o.1 ps))
                (encode_order_dict (db w) ps)).
Qed.

Lemma orders_export_staff (request : HttpRequest) (w : World) :
  is_staff (user request) = true →
  OrdersDataExportView LOGIN_URL request w = OrdersDataExportView_get request w.
Proof.
  intros Hstaff. unfold OrdersDataExportView, UserPassesTestMixin,
    OrdersDataExportView_test_func. by rewrite Hstaff.
Qed.

Lemma delete_post_stored (request : HttpRequest) (w : World) (pk : Z) (p : Product) :
  products (db w) !! pk = Some p →
  ProductDeleteView_post reverse pk request w
  = (Return (HttpResponseRedirect (reverse "shopapp:products_list")),
     archived_world w pk p).
Proof.
  intros Hp. unfold ProductDeleteView_post, get_object. by rewrite Hp.
Qed.

(** X1.  After the delete action on a stored product, the product list
    shows exactly the products it would have shown before, without the
    deleted one. *)
Theorem deleted_leaves_list (request request' : HttpRequest) (w : World)
    (pk : Z) (p : Product) :
  products (db w) !! pk = Some p →
  ∃ w' l,
    (ProductDeleteView_post reverse pk request w).2 = w'
    ∧ ProductsListView request' w'
      = (Return (render "shopapp/products-list.html"
                   (list_context "products" (ProductList l))), w')
    ∧ (∀ k row, (k, row) ∈ l
                ↔ k ≠ pk ∧ products (db w) !! k = Some row ∧ archived row = false).
Proof.
  intros Hp. rewrite (delete_post_stored request w pk p Hp).
  eexists _, _. split; [reflexivity|]. split; [reflexivity|].
  intros k row. unfold filter_archived.
  rewrite list_elem_of_filter, elem_of_objects_all. simpl.
  destruct (decide (k = pk)) as [->|Hne].
  - rewrite lookup_insert_eq. split.
    + intros [Harch Heq]. injection Heq as <-. discriminate Harch.
    + intros [Hne _]. done.
  - rewrite lookup_insert_ne by done. split.
    + intros [? ?]. done.
    + intros (_ & ? & ?). done.
Qed.

(** X2.  After the delete action on a stored product the product export
    has the same entries in the same order as before, except that the
    entry of the deleted product now says [archived: true]. *)
Theorem deleted_stays_in_export (request request' : HttpRequest) (w : World)
    (pk : Z) (p : Product) :
  products (db w) !! pk = Some p →
  ∃ w',
    (ProductDeleteView_post reverse pk request w).2 = w'
    ∧ ProductsDataExportView_get request' w'
      = (Return (mk_response 200
                   (Json (JObject [("products",
                      JArray (map (λ r : instance Product,
                                     if decide (r.1 = pk)
                                     then product_json (r.1, set_archived true r.2)
                                     else product_json r)
                                (order_by_pk (objects_all (products (db w))))))]))
                   None ∅), w').
Proof.
  intros Hp. rewrite (delete_post_stored request w pk p Hp).
  eexists. split; [reflexivity|]. rewrite products_export_get.
  simpl. rewrite (order_by_pk_overwrite _ _ _ _ Hp). rewrite map_map.
  match goal with
  | |- context [map ?f ?l] =>
      match goal with
      | |- _ = (Return (mk_response _ (Json (JObject [(_, JArray (map ?g l))])) _ _), _) =>
          assert (map f l = map g l) as ->; [|reflexivity]
      end
  end.
  apply map_ext_in. intros [k row] Hin.
  apply list_elem_of_In, elem_of_order_by_pk in Hin. simpl.
  destruct (decide (k = pk)) as [->|Hne]; [|done].
  rewrite Hp in Hin. by injection Hin as <-.
Qed.
Lemma filter_map_commute {A} (P : A → Prop) `{∀ x, Decision (P x)}
    (g : A → A) (l : list A) :
  (∀ x, P (g x) ↔ P x) → filter P (map g l) = map g (filter P l).
Proof.
  intros Hg. induction l as [|x l IH]; simpl; [done|].
  rewrite !filter_cons.
  destruct (decide (P (g x))) as [Hgx|Hgx], (decide (P x)) as [Hx|Hx]; simpl.
  - by rewrite IH.
  - exfalso. by apply Hx, (Hg x).
  - exfalso. by apply Hgx, (Hg x).
  - done.
Qed.

(** The products an order lists do not show whether they are archived. *)
Lemma associated_after_delete (w : World) (pk : Z) (p : Product) (order_pk : Z) :
  products (db w) !! pk = Some p →
  map order_product_json
    (associated (db (archived_world w pk p)) order_pk
       (order_by_pk (objects_all (products (db (archived_world w pk p))))))
  = map order_product_json
      (associated (db w) order_pk (order_by_pk (objects_all (products (db w))))).
Proof.
  intros Hp. unfold associated. simpl.
  rewrite (order_by_pk_overwrite _ _ _ _ Hp).
  rewrite filter_map_commute by (intros x; simpl; by destruct (decide (x.1 = pk)) as [->|]).
  rewrite map_map. apply map_ext_in. intros [k row] Hin.
  apply list_elem_of_In, list_elem_of_filter in Hin as [_ Hin].
  apply elem_of_order_by_pk in Hin. simpl.
  destruct (decide (k = pk)) as [->|Hne]; [|done].
  rewrite Hp in Hin. by injection Hin as <-.
Qed.

(** X3.  The delete action on a stored product does not change what the
    order export sends to a staff requester: orders keep listing the
    product, with the same name and price. *)
Theorem delete_keeps_order_export (request request' : HttpRequest) (w : World)
    (pk : Z) (p : Product) :
  products (db w) !! pk = Some p →
  is_staff (user request') = true →
  (OrdersDataExportView LOGIN_URL request'
     (ProductDeleteView_post reverse pk request w).2).1
  = (OrdersDataExportView LOGIN_URL request' w).1.
Proof.
  intros Hp Hstaff. rewrite (delete_post_stored request w pk p Hp).
  rewrite !orders_export_staff by done. rewrite !orders_export_get.
  cbn [fst snd]. do 2 f_equal.
  assert (orders (db (archived_world w pk p)) = orders (db w)) as -> by done.
  do 5 f_equal.
  apply map_ext. intros o. unfold order_json.
  by rewrite (associated_after_delete w pk p o.1 Hp).
Qed.

(** X4.  A deleted product is still served by the product detail view,
    under its key, as archived and otherwise as it was. *)
Theorem deleted_still_has_detail_page (request request' : HttpRequest) (w : World)
    (pk : Z) (p : Product) :
  products (db w) !! pk = Some p →
  ∃ w' p',
    (ProductDeleteView_post reverse pk request w).2 = w'
    ∧ ProductDetailsView pk request' w'
      = (Return (mk_detail_page "shopapp/products-details.html"
                   [("object", (pk, p')); ("product", (pk, p'))]), w')
    ∧ archived p' = true
    ∧ name p' = name p ∧ price p' = price p ∧ description p' = description p
    ∧ discount p' = discount p ∧ preview p' = preview p.
Proof.
  intros Hp. rewrite (delete_post_stored request w pk p Hp).
  exists (archived_world w pk p), (set_archived true p).
  split; [reflexivity|]. split; [|by repeat split].
  unfold ProductDetailsView, get_object. simpl. by rewrite lookup_insert_eq.
Qed.

(** X5.  For a key that is not in the product table, the detail view, the
    update view and the delete view all raise [Http404], which the client
    sees as a 404, and change nothing. *)
Theorem missing_product_404 (reverse_pk : string → Z → string)
    (request : HttpRequest) (w : World) (pk : Z) (form : ProductForm) :
  products (db w) !! pk = None →
  ProductDetailsView pk request w = (Raise Http404, w)
  ∧ ProductUpdateView_post reverse_pk pk form request w = (Raise Http404, w)
  ∧ ProductDeleteView_post reverse pk request w = (Raise Http404, w)
  ∧ status (Raise Http404) = 404.
Proof.
  intros Hp.
  unfold ProductDetailsView, ProductUpdateView_post, ProductDeleteView_post, get_object.
  by rewrite Hp.
Qed.
End ArchiveSpec.

(* ===================================================================== *)
(** ** The order pages, the session and the cookie *)
(* ===================================================================== *)

Section GatesSpec.
Import Models Django Shopapp Myauth Shapes.
Variable LOGIN_URL : string.

Lemma elem_of_order_products_all (s : Store) (order_pk pk : Z) (row : Product) :
  (pk, row) ∈ order_products_all s order_pk
  ↔ products s !! pk = Some row ∧ (order_pk, pk) ∈ order_products s.
Proof.
  unfold order_products_all. rewrite list_elem_of_filter, elem_of_objects_all.
  simpl. split; intros [? ?]; split; assumption.
Qed.


(** X6.  A requester holding [shopapp.view_order] gets the detail page of
    a stored order, with the order and exactly the stored products joined
    to it, and [Http404] for a key that is not in the order table; nothing
    changes either way. *)
Theorem order_detail_permitted (request : HttpRequest) (w : World) (pk : Z) :
  has_perm (user request) "shopapp.view_order" = true →
  (∀ o, orders (db w) !! pk = Some o →
        OrderDetailView LOGIN_URL pk request w
        = (Return (render "shopapp/order_detail.html"
                     [("object", OrderObject (pk, o) (order_products_all (db w) pk));
                      ("order", OrderObject (pk, o) (order_products_all (db w) pk))]), w))
  ∧ (orders (db w) !! pk = None →
     OrderDetailView LOGIN_URL pk request w = (Raise Http404, w))
  ∧ (∀ k row, (k, row) ∈ order_products_all (db w) pk
              ↔ products (db w) !! k = Some row ∧ (pk, k) ∈ order_products (db w)).
Proof.
  intros Hperm. unfold OrderDetailView, PermissionRequiredMixin, get_object.
  simpl. rewrite Hperm. simpl. split; [|split].
  - intros o Ho. by rewrite Ho.
  - intros Ho. by rewrite Ho.
  - intros k row. apply elem_of_order_products_all.
Qed.


(** X8.  Any logged-in requester, whatever the flags and permissions, gets
    the order list: every stored order once, each with exactly the stored
    products joined to it. *)
Theorem orders_list_logged_in (request : HttpRequest) (w : World) :
  is_authenticated (user request) = true →
  ∃ l,
    OrdersListView LOGIN_URL request w
    = (Return (render "shopapp/order_list.html"
                 (list_context "order_list" (OrderList l))), w)
    ∧ NoDup l
    ∧ (∀ k o ps, ((k, o), ps) ∈ l
                 ↔ orders (db w) !! k = Some o ∧ ps = order_products_all (db w) k)
    ∧ (∀ k pk row, (pk, row) ∈ order_products_all (db w) k
                   ↔ products (db w) !! pk = Some row
                     ∧ (k, pk) ∈ order_products (db w)).
Proof.
  intros Hauth. unfold OrdersListView, LoginRequiredMixin. rewrite Hauth.
  eexists. split; [reflexivity|]. unfold orders_queryset.
  change (map ?g ?l) with (g <$> l). split; [|split].
  - apply NoDup_fmap_2; [|apply NoDup_map_to_list].
    intros x y Heq. by injection Heq.
  - intros k o ps. rewrite list_elem_of_fmap. split.
    + intros ([k' o'] & Heq & Hin). injection Heq as -> -> ->.
      by apply elem_of_objects_all in Hin.
    + intros [Ho ->]. exists (k, o). split; [done|]. by apply elem_of_objects_all.
  - intros k pk row. apply elem_of_order_products_all.
Qed.


(** X10.  A permitted session-set writes the key [foobar] and nothing
    else: the database and every other session key are as before, and a
    second session-set changes nothing more. *)
Theorem set_session_frame (request : HttpRequest) (w : World) :
  has_perm (user request) "myauth.view_profile" = true →
  ∃ w',
    set_session_view LOGIN_URL request w = (Return (HttpResponse "Session set!"), w')
    ∧ db w' = db w
    ∧ session w' !! "foobar"%string = Some "spameggs"%string
    ∧ (∀ key, key ≠ "foobar"%string → session w' !! key = session w !! key)
    ∧ set_session_view LOGIN_URL request w' = (Return (HttpResponse "Session set!"), w').
Proof.
  intros Hperm.
  unfold set_session_view, permission_required, user_passes_test.
  simpl. rewrite Hperm. simpl. eexists. split; [reflexivity|]. simpl.
  split; [done|]. split; [apply lookup_insert_eq|]. split.
  - intros key Hne. by rewrite lookup_insert_ne.
  - by rewrite insert_insert_eq.
Qed.

(** X11.  The cookie the cookie-set view sets is the cookie the cookie-get
    view reads: a request that carries the cookies a superuser was sent is
    answered [Cookie value: 'buzz'], whoever makes it. *)
Theorem cookie_round_trip (request request' : HttpRequest) (w w' : World) (r : Response) :
  is_superuser (user request) = true →
  (set_cookie_view LOGIN_URL request w).1 = Return r →
  morsel_value <$> cookies r ⊆ COOKIES request' →
  get_cookie_view request' w' = (Return (HttpResponse "Cookie value: 'buzz'"), w').
Proof.
  intros Hsuper Hset Hsent.
  unfold set_cookie_view, user_passes_test in Hset. rewrite Hsuper in Hset.
  simpl in Hset. injection Hset as <-.
  unfold get_cookie_view.
  assert (COOKIES request' !! "fizz"%string = Some "buzz"%string) as ->; [|done].
  eapply lookup_weaken; [|exact Hsent].
  rewrite lookup_fmap. simpl. by rewrite lookup_insert_eq.
Qed.
End GatesSpec.

(* ===================================================================== *)
(** ** The export tests pass on every store *)
(* ===================================================================== *)

Section TestsSpec.
Import Models Django Shopapp Shapes Tests.
Variable LOGIN_URL : string.

Lemma json_loads_product_json (product : instance Product) :
  json_loads (product_json product) = expected_product product.
Proof. reflexivity. Qed.

Lemma json_loads_order_json (s : Store) (ps : list (instance Product))
    (o : instance Order) :
  json_loads (order_json o (associated s o.1 ps)) = order_dict o (listed s ps o.1).
Proof.
  unfold order_json, order_dict, listed. simpl. by rewrite map_map.
Qed.

(** X12.  The assertions of [test_get_products_view] hold on every store:
    the export answers 200 and the [products] of the parsed document equal
    the test's [expected_data], whose prices are [str(product.price)]. *)
Theorem test_get_products_view_passes (path : string) (w : World) :
  let response := (ProductsDataExportView_get (client_get path) w).1 in
  status response = 200
  ∧ (response_json response ≫= getitem "products")
    = Some (Py.PyList (expected_products_data w)).
Proof.
  intros response. unfold response. rewrite products_export_get.
  split; [reflexivity|]. unfold response_json, expected_products_data. simpl.
  rewrite map_map. do 2 f_equal.
Qed.

(** X13.  The assertions of [test_get_orders_view] hold on every store
    when the client is logged in as staff: the test's loops raise no
    [KeyError], the export answers 200 and the [orders] of the parsed
    document equal the test's [expected_data]. *)
Theorem test_get_orders_view_passes (request : HttpRequest) (w : World) :
  is_staff (user request) = true →
  let response := (OrdersDataExportView LOGIN_URL request w).1 in
  ∃ expected_data,
    expected_orders_data w = Return expected_data
    ∧ status response = 200
    ∧ (response_json response ≫= getitem "orders") = Some (Py.PyList expected_data).
Proof.
  intros Hstaff response. unfold response.
  rewrite (orders_export_staff LOGIN_URL request w Hstaff), orders_export_get.
  set (os := order_by_pk (objects_all (orders (db w)))).
  set (ps := order_by_pk (objects_all (products (db w)))).
  exists (map (λ o, order_dict o (listed (db w) ps o.1)) os). split; [|split].
  - unfold expected_orders_data. fold os ps. apply export_loops.
    apply Forall_forall. intros [pk row] Hin. by apply elem_of_order_by_pk in Hin.
  - reflexivity.
  - unfold response_json. simpl. rewrite map_map. do 2 f_equal.
    apply map_ext. intros o. apply json_loads_order_json.
Qed.

Lemma filter_none {A} (P : A → Prop) `{∀ x, Decision (P x)} (l : list A) :
  (∀ x, x ∈ l → ¬ P x) → filter P l = [].
Proof.
  induction l as [|x l IH]; intros Hl; [done|].
  rewrite filter_cons_False by (apply Hl, list_elem_of_here).
  apply IH. intros y Hy. by apply Hl, list_elem_of_further.
Qed.

(** X17.  An order with no stored product joined to it is exported with an
    empty [products] list: the key is set before the inner loop, so the
    comprehension finds it. *)
Theorem order_without_products_exported (request : HttpRequest) (w : World)
    (pk : Z) (o : Order) :
  is_staff (user request) = true →
  orders (db w) !! pk = Some o →
  (∀ k, (pk, k) ∈ order_products (db w) → products (db w) !! k = None) →
  ∃ entries,
    json_body (OrdersDataExportView LOGIN_URL request w).1
    = Some (JObject [("orders", JArray entries)])
    ∧ order_json (pk, o) [] ∈ entries.
Proof.
  intros Hstaff Ho Hnone.
  rewrite (orders_export_staff LOGIN_URL request w Hstaff), orders_export_get.
  eexists. split; [reflexivity|].
  change (map ?g ?l) with (g <$> l). apply list_elem_of_fmap.
  exists (pk, o). split; [|by apply elem_of_order_by_pk].
  simpl. unfold order_json, associated. simpl.
  rewrite filter_none; [done|].
  intros [k row] Hin Hjoin. apply elem_of_order_by_pk in Hin.
  simpl in Hjoin. apply Hnone in Hjoin. congruence.
Qed.
End TestsSpec.

(* ===================================================================== *)
(** ** Creating and updating *)
(* ===================================================================== *)

Section CrudSpec.
Import Models Django Shopapp Shapes Crud.
Variable LOGIN_URL : string.
Variable reverse : string → string.
Variable reverse_pk : string → Z → string.



Lemma associated_new_order (w : World) (new_pk : Z) (now : Py.datetime)
    (form : OrderForm) (ps : list (instance Product)) :
  (∀ k, (new_pk, k) ∉ order_products (db w)) →
  associated (db (OrderCreateView_form_valid reverse new_pk now form w).2) new_pk ps
  = filter (λ p : instance Product, p.1 ∈ form_products form) ps.
Proof.
  intros Hfree. unfold associated. simpl. apply list_filter_iff.
  intros [k row]. simpl. rewrite elem_of_union, elem_of_map. split.
  - intros [Hin|(k' & Heq & Hin)]; [by apply Hfree in Hin|].
    by injection Heq as ->.
  - intros Hin. right. by exists k.
Qed.

Lemma associated_old_order (w : World) (new_pk : Z) (now : Py.datetime)
    (form : OrderForm) (ps : list (instance Product)) (order_pk : Z) :
  order_pk ≠ new_pk →
  associated (db (OrderCreateView_form_valid reverse new_pk now form w).2) order_pk ps
  = associated (db w) order_pk ps.
Proof.
  intros Hne. unfold associated. simpl. apply list_filter_iff.
  intros [k row]. simpl. rewrite elem_of_union, elem_of_map. split.
  - intros [Hin|(k' & Heq & Hin)]; [done|]. injection Heq as ? _. done.
  - intros Hin. by left.
Qed.

(** X16.  An order created from a valid form, stored under a key that was
    free and had no join row, appears in the order export: the export
    then has the entries it had before and one more, the new order with
    the chosen products that are in the product table, in ascending
    primary-key order. *)
Theorem created_order_is_exported (request' : HttpRequest) (w : World)
    (new_pk : Z) (now : Py.datetime) (form : OrderForm) :
  orders (db w) !! new_pk = None →
  (∀ k, (new_pk, k) ∉ order_products (db w)) →
  is_staff (user request') = true →
  ∃ w' entries entries',
    OrderCreateView_form_valid reverse new_pk now form w
    = (Return (HttpResponseRedirect (reverse "shopapp:orders_list")), w')
    ∧ json_body (OrdersDataExportView LOGIN_URL request' w).1
      = Some (JObject [("orders", JArray entries)])
    ∧ json_body (OrdersDataExportView LOGIN_URL request' w').1
      = Some (JObject [("orders", JArray entries')])
    ∧ (∀ j, j ∈ entries'
            ↔ j ∈ entries
              ∨ j = order_json (new_pk, construct_order now form)
                      (filter (λ p : instance Product, p.1 ∈ form_products form)
                         (order_by_pk (objects_all (products (db w)))))).
Proof.
  intros Hfree Hnojoin Hstaff.
  exists (OrderCreateView_form_valid reverse new_pk now form w).2.
  eexists _, _. split; [reflexivity|].
  rewrite !(orders_export_staff LOGIN_URL) by done.
  rewrite !orders_export_get. split; [reflexivity|]. split; [reflexivity|].
  intros j. change (map ?g ?l) with (g <$> l). rewrite !list_elem_of_fmap.
  change (products (db (OrderCreateView_form_valid reverse new_pk now form w).2))
    with (products (db w)).
  change (orders (db (OrderCreateView_form_valid reverse new_pk now form w).2))
    with (<[new_pk := construct_order now form]> (orders (db w))).
  set (ps := order_by_pk (objects_all (products (db w)))). split.
  - intros ([k row] & -> & Hin). apply elem_of_order_by_pk in Hin.
    cbn [fst]. destruct (decide (k = new_pk)) as [->|Hne].
    + rewrite lookup_insert_eq in Hin. injection Hin as <-. right.
      by rewrite (associated_new_order w new_pk now form ps Hnojoin).
    + rewrite lookup_insert_ne in Hin by done. left.
      exists (k, row). split; [|by apply elem_of_order_by_pk].
      by rewrite (associated_old_order w new_pk now form ps k Hne).
  - intros [([k row] & -> & Hin)| ->].
    + apply elem_of_order_by_pk in Hin.
      assert (k ≠ new_pk) as Hne by congruence.
      exists (k, row). split.
      * cbn [fst]. by rewrite (associated_old_order w new_pk now form ps k Hne).
      * apply elem_of_order_by_pk. by rewrite lookup_insert_ne.
    + exists (new_pk, construct_order now form). split.
      * cbn [fst]. by rewrite (associated_new_order w new_pk now form ps Hnojoin).
      * apply elem_of_order_by_pk. apply lookup_insert_eq.
Qed.
End CrudSpec.

(* ===================================================================== *)
(** ** The further theorems at the example shop *)
(* ===================================================================== *)

Section MoreInstances.
Import Models Django Shapes Crud Tests Fixtures MoreFixtures.

Lemma shop_join_rows (order_pk k : Z) :
  (order_pk, k) ∈ order_products shop → order_pk = 3 ∨ order_pk = 4.
Proof.
  unfold shop. simpl. rewrite !elem_of_union, !elem_of_singleton.
  intros [[H|H]|H]; injection H as -> _; auto.
Defined.

Lemma deleted_leaves_list_witness :
  ∃ l, Shopapp.ProductsListView (get AnonymousUser "/shop/products/")
         (Shopapp.ProductDeleteView_post reverse 5
            (get AnonymousUser "/shop/products/5/archive/") world).2
       = (Return (render "shopapp/products-list.html"
                    (Shopapp.list_context "products" (ProductList l))),
          (Shopapp.ProductDeleteView_post reverse 5
             (get AnonymousUser "/shop/products/5/archive/") world).2)
       ∧ ((5, laptop) ∉ l) ∧ (7, phone) ∈ l.
Proof.
  destruct (deleted_leaves_list reverse (get AnonymousUser "/shop/products/5/archive/")
              (get AnonymousUser "/shop/products/") world 5 laptop eq_refl)
    as (w' & l & <- & Hview & Hl).
  exists l. split; [exact Hview|]. split.
  - intros Hin. apply Hl in Hin as [Hne _]. by apply Hne.
  - apply Hl. by repeat split.
Defined.

Lemma deleted_stays_in_export_witness :
  (((json_body (Shopapp.ProductsDataExportView_get (get AnonymousUser "/shop/products/export/")
                  (Shopapp.ProductDeleteView_post reverse 5
                     (get AnonymousUser "/shop/products/5/archive/") world).2).1
     ≫= member "products") ≫= item 1) ≫= member "archived")
  = Some (JBool true).
Proof.
  destruct (deleted_stays_in_export reverse (get AnonymousUser "/shop/products/5/archive/")
              (get AnonymousUser "/shop/products/export/") world 5 laptop eq_refl)
    as (w' & <- & Hview).
  rewrite Hview. reflexivity.
Defined.

Lemma delete_keeps_order_export_witness :
  (Shopapp.OrdersDataExportView login_url (get (LoggedIn staff) "/shop/orders/export/")
     (Shopapp.ProductDeleteView_post reverse 5
        (get AnonymousUser "/shop/products/5/archive/") world).2).1
  = (Shopapp.OrdersDataExportView login_url (get (LoggedIn staff) "/shop/orders/export/")
       world).1.
Proof.
  exact (delete_keeps_order_export login_url reverse
           (get AnonymousUser "/shop/products/5/archive/")
           (get (LoggedIn staff) "/shop/orders/export/") world 5 laptop eq_refl eq_refl).
Defined.

Lemma deleted_still_has_detail_page_witness :
  ∃ p', (ProductDetailsView 5 (get AnonymousUser "/shop/products/5/")
           (Shopapp.ProductDeleteView_post reverse 5
              (get AnonymousUser "/shop/products/5/archive/") world).2).1
        = Return (mk_detail_page "shopapp/products-details.html"
                    [("object", (5, p')); ("product", (5, p'))])
        ∧ archived p' = true ∧ name p' = "Laptop"%string.
Proof.
  destruct (deleted_still_has_detail_page reverse
              (get AnonymousUser "/shop/products/5/archive/")
              (get AnonymousUser "/shop/products/5/") world 5 laptop eq_refl)
    as (w' & p' & <- & Hview & Harch & Hname & _).
  exists p'. rewrite Hview. by repeat split.
Defined.

Lemma missing_product_404_witness :
  products (db world) !! 9 = None
  ∧ Shopapp.ProductDeleteView_post reverse 9
      (get AnonymousUser "/shop/products/9/archive/") world
    = (Raise Http404, world).
Proof.
  split; [reflexivity|].
  apply (missing_product_404 reverse reverse_pk
           (get AnonymousUser "/shop/products/9/archive/") world 9 chair_form eq_refl).
Defined.

Lemma order_detail_permitted_witness :
  status (Shopapp.OrderDetailView login_url 3 (get (LoggedIn clerk) "/shop/orders/3/") world).1
  = 200
  ∧ status (Shopapp.OrderDetailView login_url 9 (get (LoggedIn clerk) "/shop/orders/9/") world).1
    = 404.
Proof.
  split.
  - rewrite (proj1 (order_detail_permitted login_url
                      (get (LoggedIn clerk) "/shop/orders/3/") world 3 eq_refl)
               order1 eq_refl).
    reflexivity.
  - rewrite (proj1 (proj2 (order_detail_permitted login_url
                             (get (LoggedIn clerk) "/shop/orders/9/") world 9 eq_refl))
               eq_refl).
    reflexivity.
Defined.


Lemma orders_list_logged_in_witness :
  ∃ l, Shopapp.OrdersListView login_url (get (LoggedIn customer) "/shop/orders/") world
       = (Return (render "shopapp/order_list.html"
                    (Shopapp.list_context "order_list" (OrderList l))), world)
       ∧ ((4, order2), order_products_all shop 4) ∈ l.
Proof.
  destruct (orders_list_logged_in login_url (get (LoggedIn customer) "/shop/orders/")
              world eq_refl) as (l & Hview & _ & Hl & _).
  exists l. split; [exact Hview|]. apply Hl. by split.
Defined.


Lemma set_session_frame_witness :
  ∃ w', Myauth.set_session_view login_url (get (LoggedIn viewer) "/myauth/session/set/") world
        = (Return (HttpResponse "Session set!"), w')
        ∧ db w' = shop.
Proof.
  destruct (set_session_frame login_url (get (LoggedIn viewer) "/myauth/session/set/")
              world eq_refl) as (w' & Hset & Hdb & _).
  exists w'. by split.
Defined.

Lemma cookie_round_trip_witness :
  Myauth.get_cookie_view (get_with_cookie "buzz") world
  = (Return (HttpResponse "Cookie value: 'buzz'"), world).
Proof.
  apply (cookie_round_trip login_url (get (LoggedIn admin) "/myauth/cookie/set/")
           (get_with_cookie "buzz") world world
           (set_cookie "fizz" "buzz" 3600 (HttpResponse "Cookie set"))
           eq_refl eq_refl).
  assert (morsel_value <$> cookies (set_cookie "fizz" "buzz" 3600 (HttpResponse "Cookie set"))
          = COOKIES (get_with_cookie "buzz")) as ->; [|done].
  unfold set_cookie, get_with_cookie. simpl.
  by rewrite fmap_insert, fmap_empty, insert_empty.
Defined.

Lemma test_get_orders_view_passes_witness :
  ∃ expected_data,
    expected_orders_data world = Return expected_data
    ∧ length expected_data = 2%nat.
Proof.
  destruct (test_get_orders_view_passes login_url
              (get (LoggedIn staff) "/shop/orders/export/") world eq_refl)
    as (expected_data & Hexpected & _ & _).
  exists expected_data. split; [exact Hexpected|].
  assert (Return expected_data = expected_orders_data world) as Heq by done.
  vm_compute in Heq. by injection Heq as ->.
Defined.

Lemma order_without_products_exported_witness :
  ∃ entries,
    json_body (Shopapp.OrdersDataExportView login_url
                 (get (LoggedIn staff) "/shop/orders/export/") world_with_empty_order).1
    = Some (JObject [("orders", JArray entries)])
    ∧ order_json (6, order1) [] ∈ entries.
Proof.
  apply (order_without_products_exported login_url
           (get (LoggedIn staff) "/shop/orders/export/") world_with_empty_order
           6 order1 eq_refl eq_refl).
  intros k Hin. apply shop_join_rows in Hin as [Hin|Hin]; discriminate Hin.
Defined.



Lemma created_order_is_exported_witness :
  ∃ entries',
    json_body (Shopapp.OrdersDataExportView login_url
                 (get (LoggedIn staff) "/shop/orders/export/")
                 (OrderCreateView_form_valid reverse 8 evening order_form world).2).1
    = Some (JObject [("orders", JArray entries')])
    ∧ order_json (8, construct_order evening order_form) [(2, desktop); (5, laptop)]
      ∈ entries'.
Proof.
  assert (∀ k, (8, k) ∉ order_products (db world)) as Hnojoin.
  { intros k Hin. apply shop_join_rows in Hin as [Hin|Hin]; discriminate Hin. }
  destruct (created_order_is_exported login_url reverse
              (get (LoggedIn staff) "/shop/orders/export/") world 8 evening order_form
              eq_refl Hnojoin eq_refl)
    as (w' & entries & entries' & Hcreate & _ & Hexport & Hentries).
  exists entries'. split.
  - rewrite <- Hexport. by rewrite Hcreate.
  - apply Hentries. right. reflexivity.
Defined.
End MoreInstances.
